(** * Prayer.py: solar position, Asr time and last third of the night

    A shallow embedding of [Prayer.py].

    Number model.  Python [int] is [Z].  The calendar arithmetic of
    [julian_day] is carried out over the rationals [Q]: for every date a
    [datetime] can hold, each binary64 product of that function truncates
    to the integer the rational product truncates to, and the sums are
    exact.  The trigonometric part works on Python [float]s, which are
    embedded as real numbers [R]: rounding, infinities and NaN are not part
    of that model, the [math] functions are the real functions of the same
    name, and the exceptions they raise on finite arguments are kept.  The
    clamp of [asr_time] is embedded a second time on binary64 values
    (module [Binary64]), where NaN and the infinities exist.  Exceptions
    are values of [exn], threaded through [result]. *)

From Stdlib Require Import Floats.
From Stdlib Require Import ZArith QArith Qround Reals Qreals Lra Lia Bool.
From Stdlib Require Import String Ascii List.
Import ListNotations.

(** ** Exceptions *)

(** The exceptions the embedded functions can raise.  CPython reports every
    [math] range failure as [ValueError: math domain error]; the constructor
    carries the name of the raising function so that the raising statement
    stays identifiable. *)
Inductive exn : Type :=
| ZeroDivisionError
| MathDomainError (fn : string)
| ValueError (msg : string)
| OverflowError
| UnknownTimeZoneError (name : string).

Inductive result (A : Type) : Type :=
| Ok (a : A)
| Raise (e : exn).
Arguments Ok {A} a.
Arguments Raise {A} e.

Definition bind {A B : Type} (r : result A) (k : A -> result B) : result B :=
  match r with
  | Ok a => k a
  | Raise e => Raise e
  end.

Notation "x <- r ;; k" := (bind r (fun x => k))
  (at level 61, r at next level, right associativity).

(** ** Calendar *)

Module Calendar.
Local Open Scope Z_scope.

(** [int(x)] on a number: truncation towards zero. *)
Definition int_of_Q (x : Q) : Z := Z.quot (Qnum x) (Zpos (Qden x)).

(** [julian_day(year, month, day)]. *)
Definition julian_day (year month day : Z) : Q :=
  let '(year, month) :=
    if month <=? 2 then (year - 1, month + 12) else (year, month) in
  let A := year / 100 in
  let B := 2 - A + A / 4 in
  let JD := (inject_Z (int_of_Q (365.25 * inject_Z (year + 4716))
                       + int_of_Q (30.6001 * inject_Z (month + 1))
                       + day + B) - 1524.5)%Q in
  JD.

(** The fields of a [datetime.date] (or [datetime]) read by the program. *)
Record date : Type := mkdate { year : Z; month : Z; day : Z }.

Definition is_leap (y : Z) : bool :=
  (y mod 4 =? 0) && (negb (y mod 100 =? 0) || (y mod 400 =? 0)).

Definition days_in_month (y m : Z) : Z :=
  if m =? 2 then (if is_leap y then 29 else 28)
  else if (m =? 4) || (m =? 6) || (m =? 9) || (m =? 11) then 30
  else 31.

(** A date of the (proleptic) Gregorian calendar. *)
Definition gregorian (d : date) : bool :=
  (1 <=? month d) && (month d <=? 12) &&
  (1 <=? day d) && (day d <=? days_in_month (year d) (month d)).

(** The calendar day after [d]. *)
Definition next_day (d : date) : date :=
  if day d <? days_in_month (year d) (month d)
  then mkdate (year d) (month d) (day d + 1)
  else if month d <? 12
       then mkdate (year d) (month d + 1) 1
       else mkdate (year d + 1) 1 1.

Definition julian_day_of (d : date) : Q := julian_day (year d) (month d) (day d).

End Calendar.


(** ** [datetime], [timedelta], [strptime], [strftime] and [pytz] *)

Module Datetime.
Import Calendar.
Local Open Scope Z_scope.

Definition MINYEAR : Z := 1.
Definition MAXYEAR : Z := 9999.

(** Ordinal of 9999-12-31, where 0001-01-01 has ordinal 1. *)
Definition MAXORDINAL : Z := 3652059.

Definition days_before_year (y : Z) : Z :=
  let y := y - 1 in y * 365 + y / 4 - y / 100 + y / 400.

Definition days_before_month (y m : Z) : Z :=
  nth (Z.to_nat m) [0; 0; 31; 59; 90; 120; 151; 181; 212; 243; 273; 304; 334] 0
  + (if (2 <? m) && is_leap y then 1 else 0).

Definition ymd2ord (y m d : Z) : Z :=
  days_before_year y + days_before_month y m + d.

Definition usec_per_minute : Z := 60000000.
Definition usec_per_hour : Z := 3600000000.
Definition usec_per_day : Z := 86400000000.

(** A [datetime]: microseconds elapsed since the midnight that begins
    ordinal day 0.  A [timedelta]: a number of microseconds. *)
Definition datetime : Type := Z.
Definition timedelta : Type := Z.

Definition toordinal (t : datetime) : Z := t / usec_per_day.
Definition hour (t : datetime) : Z := (t mod usec_per_day) / usec_per_hour.
Definition minute (t : datetime) : Z :=
  ((t mod usec_per_day) mod usec_per_hour) / usec_per_minute.

(** [datetime(year, month, day, hour, minute)] with its field checks. *)
Definition datetime_new (y m d h mi : Z) : result datetime :=
  if negb ((MINYEAR <=? y) && (y <=? MAXYEAR))
  then Raise (ValueError "year is out of range")
  else if negb ((1 <=? m) && (m <=? 12))
  then Raise (ValueError "month must be in 1..12")
  else if negb ((1 <=? d) && (d <=? days_in_month y m))
  then Raise (ValueError "day is out of range for month")
  else if negb ((0 <=? h) && (h <=? 23))
  then Raise (ValueError "hour must be in 0..23")
  else if negb ((0 <=? mi) && (mi <=? 59))
  then Raise (ValueError "minute must be in 0..59")
  else Ok (ymd2ord y m d * usec_per_day + h * usec_per_hour + mi * usec_per_minute).

(** [datetime + timedelta]. *)
Definition datetime_add (t : datetime) (delta : timedelta) : result datetime :=
  let r := t + delta in
  if (0 <? toordinal r) && (toordinal r <=? MAXORDINAL)
  then Ok r else Raise OverflowError.

(** [timedelta / int]: the quotient rounded to the nearest microsecond,
    ties to even. *)
Definition divide_and_round (a b : Z) : Z :=
  let q := a / b in
  let r := 2 * (a mod b) in
  let greater_than_half := if 0 <? b then b <? r else r <? b in
  if greater_than_half || ((r =? b) && (q mod 2 =? 1)) then q + 1 else q.

Definition timedelta_truediv (delta : timedelta) (n : Z) : result timedelta :=
  if n =? 0 then Raise ZeroDivisionError else Ok (divide_and_round delta n).

(** The value of a decimal digit.  Text is modelled as ASCII: the [\d] of
    CPython's [strptime] also matches the decimal digits of other scripts,
    which are not part of this model and are rejected here. *)
Definition digit_of (c : ascii) : option Z :=
  let n := Z.of_N (N_of_ascii c) in
  if (48 <=? n) && (n <=? 57) then Some (n - 48) else None.

(** The ways directive [%H], regular expression [2[0-3]|[0-1]\d|\d], matches
    a prefix of [s], in the order the alternatives are tried. *)
Definition match_H (s : string) : list (Z * string) :=
  match s with
  | String c1 (String c2 r) =>
      match digit_of c1, digit_of c2 with
      | Some a, Some b =>
          (if (a =? 2) && (b <=? 3) then [(20 + b, r)] else [])
          ++ (if a <=? 1 then [(10 * a + b, r)] else [])
          ++ [(a, String c2 r)]
      | Some a, None => [(a, String c2 r)]
      | None, _ => []
      end
  | String c1 EmptyString =>
      match digit_of c1 with Some a => [(a, EmptyString)] | None => [] end
  | EmptyString => []
  end.

(** The same for [%M], regular expression [[0-5]\d|\d]. *)
Definition match_M (s : string) : list (Z * string) :=
  match s with
  | String c1 (String c2 r) =>
      match digit_of c1, digit_of c2 with
      | Some a, Some b =>
          (if a <=? 5 then [(10 * a + b, r)] else []) ++ [(a, String c2 r)]
      | Some a, None => [(a, String c2 r)]
      | None, _ => []
      end
  | String c1 EmptyString =>
      match digit_of c1 with Some a => [(a, EmptyString)] | None => [] end
  | EmptyString => []
  end.

(** [datetime.strptime(s, "%H:%M")], reduced to the hour and the minute
    (the date fields are replaced by the caller). *)
Definition strptime_HM (s : string) : result (Z * Z) :=
  let after_colon (hr : Z * string) :=
    match snd hr with
    | String ":" r => map (fun mr => (fst hr, fst mr, snd mr)) (match_M r)
    | _ => []
    end in
  match flat_map after_colon (match_H s) with
  | [] => Raise (ValueError "time data does not match format")
  | (h, m, EmptyString) :: _ => Ok (h, m)
  | (_, _, String _ _) :: _ => Raise (ValueError "unconverted data remains")
  end.

Definition digit_char (n : Z) : ascii := ascii_of_N (Z.to_N (48 + n)).

Definition two_digits (n : Z) : string :=
  String (digit_char (n / 10)) (String (digit_char (n mod 10)) EmptyString).

(** [t.strftime("%H:%M")]. *)
Definition strftime_HM (t : datetime) : string :=
  (two_digits (hour t) ++ ":" ++ two_digits (minute t))%string.

(** A [pytz] time zone, as far as [astimezone] reads it: the offset from
    UTC, in seconds, in force at a UTC instant. *)
Record tzinfo : Type := mktz { utcoffset : datetime -> Z }.

(** [dt.astimezone(tz)] for a [dt] in UTC. *)
Definition astimezone (t : datetime) (tz : tzinfo) : result datetime :=
  datetime_add t (utcoffset tz t * 1000000).

End Datetime.


(** ** The [math] module and float arithmetic *)

Module PyMath.
Local Open Scope R_scope.

(** [math.radians] and [math.degrees]. *)
Definition radians (x : R) : R := x * (PI / 180).
Definition degrees (x : R) : R := x * (180 / PI).

(** [x % y] on floats, for a positive [y]: the result has the sign of [y]. *)
Definition float_mod (x y : R) : R := x - IZR (Zfloor (x / y)) * y.

(** [x / y] where [y] is not a literal. *)
Definition float_div (x y : R) : result R :=
  if Req_dec_T y 0 then Raise ZeroDivisionError else Ok (x / y).

(** [int(x)]: truncation towards zero. *)
Definition int_of_R (x : R) : Z := if Rle_dec 0 x then Zfloor x else Zceil x.

(** [max(a, b)] keeps [a] unless [b > a]; [min(a, b)] keeps [a] unless
    [b < a]. *)
Definition py_max (a b : R) : R := if Rlt_dec a b then b else a.
Definition py_min (a b : R) : R := if Rlt_dec b a then b else a.

Definition in_unit_interval (x : R) : {-1 <= x <= 1} + {~ (-1 <= x <= 1)}.
Proof.
  destruct (Rle_dec (-1) x) as [Hl | Hl].
  - destruct (Rle_dec x 1) as [Hu | Hu].
    + left; split; assumption.
    + right; intros [_ H]; exact (Hu H).
  - right; intros [H _]; exact (Hl H).
Defined.

(** [math.asin] and [math.acos] raise outside [[-1, 1]]. *)
Definition math_asin (x : R) : result R :=
  if in_unit_interval x then Ok (asin x) else Raise (MathDomainError "asin").

Definition math_acos (x : R) : result R :=
  if in_unit_interval x then Ok (acos x) else Raise (MathDomainError "acos").

(** [math.atan2(y, x)]: the angle of the point [(x, y)], in ]-PI, PI]. *)
Definition atan2 (y x : R) : R :=
  match total_order_T x 0 with
  | inleft (left _) => if Rle_dec 0 y then atan (y / x) + PI else atan (y / x) - PI
  | inleft (right _) =>
      match total_order_T y 0 with
      | inleft (left _) => - (PI / 2)
      | inleft (right _) => 0
      | inright _ => PI / 2
      end
  | inright _ => atan (y / x)
  end.

End PyMath.

(** ** The clamp of [asr_time] on binary64 values *)

Module Binary64.
Local Open Scope float_scope.

(** [max(a, b)] and [min(a, b)] with the comparisons of binary64, which
    are false as soon as an operand is NaN. *)
Definition py_max (a b : float) : float := if PrimFloat.ltb a b then b else a.
Definition py_min (a b : float) : float := if PrimFloat.ltb b a then b else a.

(** [min(1, max(-1, cosH))]. *)
Definition clamp (cosH : float) : float := py_min 1 (py_max (-1) cosH).

(** [math.acos(x)] raises unless [x] is NaN or lies in [[-1, 1]]. *)
Definition acos_accepts (x : float) : bool :=
  PrimFloat.is_nan x || (PrimFloat.leb (-1) x && PrimFloat.leb x 1).

End Binary64.

(** ** The program *)

Module Prayer.
Import Calendar Datetime PyMath.
Local Open Scope R_scope.

(** The local variables of [solar_declination], with the values they hold
    when the [return] statement is reached. *)
Module Declination.
Record locals : Type := mklocals {
  n : R;
  g : R;
  q : R;
  L : R;
  e : R;
  sin_decl : R
}.
End Declination.

Definition solar_declination_locals (JD : R) : Declination.locals :=
  let n := JD - 2451545.0 in
  let g := radians (float_mod (357.529 + 0.98560028 * n) 360) in
  let q := float_mod (280.459 + 0.98564736 * n) 360 in
  let L := float_mod (q + 1.915 * sin g + 0.020 * sin (2 * g)) 360 in
  let e := radians (23.439 - 0.00000036 * n) in
  let sin_decl := sin e * sin (radians L) in
  Declination.mklocals n g q L e sin_decl.

Definition solar_declination (JD : R) : result R :=
  math_asin (Declination.sin_decl (solar_declination_locals JD)).

(** The value of the variable [eq_time] of [equation_of_time] when the
    [return] statement is reached: the equation of time in hours. *)
Definition eq_time_hours (JD : R) : R :=
  let n := JD - 2451545.0 in
  let g := radians (float_mod (357.529 + 0.98560028 * n) 360) in
  let q := float_mod (280.459 + 0.98564736 * n) 360 in
  let L := float_mod (q + 1.915 * sin g + 0.020 * sin (2 * g)) 360 in
  let e := radians (23.439 - 0.00000036 * n) in
  let RA :=
    float_mod (degrees (atan2 (cos e * sin (radians L)) (cos (radians L)))) 360 in
  let eq_time := q / 15 - RA / 15 in
  if Rlt_dec 12 eq_time then eq_time - 24
  else if Rlt_dec eq_time (-12) then eq_time + 24
  else eq_time.

Definition equation_of_time (JD : R) : R := eq_time_hours JD * 60.

Definition solar_noon (longitude JD : R) : R :=
  let eqt := equation_of_time JD in
  let noon := 12 - (longitude / 15) - (eqt / 60) in
  noon.

Section WithTimeZones.

(** The time zone database [pytz] reads: the zone of each known name. *)
Variable tzdata : string -> option tzinfo.

(** [pytz.timezone(name)]. *)
Definition pytz_timezone (name : string) : result tzinfo :=
  match tzdata name with
  | Some z => Ok z
  | None => Raise (UnknownTimeZoneError name)
  end.

Definition asr_time (lat lon : R) (date : date) (shadow_len : R) (tz : string)
  : result string :=
  let JD := Q2R (julian_day (year date) (month date) (day date)) in
  decl <- solar_declination JD ;;
  let noon_utc := solar_noon lon JD in
  let lat_rad := radians lat in
  inv_len <- float_div 1 shadow_len ;;
  let angle := atan inv_len in
  cosH <- float_div (sin angle - sin lat_rad * sin decl)
                    (cos lat_rad * cos decl) ;;
  let cosH := py_min 1 (py_max (-1) cosH) in
  H <- math_acos cosH ;;
  let H_h := degrees H / 15 in
  let asr_utc := noon_utc + H_h in
  let hr := int_of_R asr_utc in
  let mn := int_of_R ((asr_utc - IZR hr) * 60) in
  dt <- datetime_new (year date) (month date) (day date) hr mn ;;
  zone <- pytz_timezone tz ;;
  local <- astimezone dt zone ;;
  Ok (strftime_HM local).

(** The value of the variable [asr_utc] of [asr_time], or the exception
    raised before it is assigned. *)
Definition asr_utc (lat lon : R) (date : date) (shadow_len : R) : result R :=
  let JD := Q2R (julian_day (year date) (month date) (day date)) in
  decl <- solar_declination JD ;;
  let noon_utc := solar_noon lon JD in
  let lat_rad := radians lat in
  inv_len <- float_div 1 shadow_len ;;
  let angle := atan inv_len in
  cosH <- float_div (sin angle - sin lat_rad * sin decl)
                    (cos lat_rad * cos decl) ;;
  let cosH := py_min 1 (py_max (-1) cosH) in
  H <- math_acos cosH ;;
  let H_h := degrees H / 15 in
  Ok (noon_utc + H_h).

(** The statements of [asr_time] that follow the assignment of [asr_utc]. *)
Definition asr_clock (asr_utc : R) (date : date) (tz : string) : result string :=
  let hr := int_of_R asr_utc in
  let mn := int_of_R ((asr_utc - IZR hr) * 60) in
  dt <- datetime_new (year date) (month date) (day date) hr mn ;;
  zone <- pytz_timezone tz ;;
  local <- astimezone dt zone ;;
  Ok (strftime_HM local).

Definition last_third_time (sunset_str fajr_str timezone_str : string)
  (date : date) : result string :=
  tz <- pytz_timezone timezone_str ;;
  hm <- strptime_HM sunset_str ;;
  sunset <- datetime_new (year date) (month date) (day date) (fst hm) (snd hm) ;;
  hm <- strptime_HM fajr_str ;;
  fajr <- datetime_new (year date) (month date) (day date) (fst hm) (snd hm) ;;
  fajr <- (if (fajr <=? sunset)%Z then datetime_add fajr usec_per_day
           else Ok fajr) ;;
  let night_duration := (fajr - sunset)%Z in
  two_thirds <- timedelta_truediv (night_duration * 2)%Z 3%Z ;;
  last_third <- datetime_add sunset two_thirds ;;
  Ok (strftime_HM last_third).

End WithTimeZones.

End Prayer.


(** ** Reference definitions, written from the specification, and
    auxiliary definitions of the proofs *)

Module Spec.
Import Calendar Datetime PyMath.

(** A date a [datetime.date] can hold. *)
Definition pydate (d : date) : bool :=
  ((MINYEAR <=? year d) && (year d <=? MAXYEAR))%Z && gregorian d.

(** Night-fraction calculator, on seconds since the midnight that begins
    the reference date: dawn is moved to the following day when it is not
    after sunset; the result is sunset plus two thirds of the night. *)
Definition spec_last_third (sunset dawn : Z) : Z :=
  let dawn := if (dawn <=? sunset)%Z then (dawn + 86400)%Z else dawn in
  let duration := (dawn - sunset)%Z in
  (sunset + duration * 2 / 3)%Z.

(** The wall clock, as [HH:MM], a number of seconds after a midnight. *)
Definition clock_HM (seconds : Z) : string :=
  (two_digits ((seconds / 3600) mod 24) ++ ":"
   ++ two_digits ((seconds / 60) mod 60))%string.

(** [r] is [x] reduced modulo 360 degrees into [[0, 360)]. *)
Definition is_mod360 (x r : R) : Prop :=
  (0 <= r < 360)%R /\ exists k : Z, (x = r + 360 * IZR k)%R.

(** The Gregorian-to-Julian-Day conversion, with floors, on a month
    numbered from 3 to 14. *)
Definition gregorian_to_jd (Y M D : Z) : Q :=
  (inject_Z (Qfloor (365.25 * inject_Z (Y + 4716))
             + Qfloor (30.6001 * inject_Z (M + 1))
             + D + (2 - Y / 100 + Y / 100 / 4)) - 1524.5)%Q.

(** The integer summed in [julian_day] before [1524.5] is subtracted. *)
Definition jd_int (year month day : Z) : Z :=
  (let '(year, month) :=
     if month <=? 2 then (year - 1, month + 12) else (year, month) in
   let A := year / 100 in
   let B := 2 - A + A / 4 in
   int_of_Q (365.25 * inject_Z (year + 4716))
   + int_of_Q (30.6001 * inject_Z (month + 1)) + day + B)%Z.

(** The hour angle of [asr_time], in hours, as a function of [cosH] before
    the clamp. *)
Definition hour_angle_hours (cosH : R) : R :=
  (degrees (acos (py_min 1 (py_max (-1) cosH))) / 15)%R.

(** The date and the zones of the worked examples. *)
Definition new_year_2000 : date := mkdate 2000 1 1.

Definition example_tzdata (name : string) : option tzinfo :=
  if String.eqb name "UTC" then Some (mktz (fun _ => 0%Z))
  else if String.eqb name "Asia/Riyadh" then Some (mktz (fun _ => 10800%Z))
  else None.

End Spec.


(** ** The caller: [get_prayer_times] and [main] *)

Module App.
Import Calendar Datetime PyMath Prayer.

(** Exceptions of the outer layer: those of the functions above, and the
    ones the caller adds.  [ExternalError] stands for whatever the network,
    the JSON decoder or the zone finder raise. *)
Inductive app_exn : Type :=
| Core (e : exn)
| KeyError (key : string)
| TypeError
| APIError (msg : string)
| EOFError
| ExternalError (what : string).

Inductive outcome (A : Type) : Type :=
| Return (a : A)
| Throw (e : app_exn).
Arguments Return {A} a.
Arguments Throw {A} e.

Definition and_then {A B : Type} (r : outcome A) (k : A -> outcome B)
  : outcome B :=
  match r with
  | Return a => k a
  | Throw e => Throw e
  end.

Notation "x <~ r ;; k" := (and_then r (fun x => k))
  (at level 61, r at next level, right associativity).

(** A call of one of the functions above from the caller. *)
Definition call {A : Type} (r : result A) : outcome A :=
  match r with
  | Ok a => Return a
  | Raise e => Throw (Core e)
  end.

(** A decoded JSON value.  A [dict] keeps its keys in insertion order. *)
#[warnings="-register-all"]
Inductive json : Type :=
| JNull
| JBool (b : bool)
| JInt (n : Z)
| JFloat (x : R)
| JStr (s : string)
| JList (l : list json)
| JDict (d : list (string * json)).

Definition dict : Type := list (string * json).

(** [d.get(k)]. *)
Fixpoint dict_get (k : string) (d : dict) : option json :=
  match d with
  | [] => None
  | (k', v) :: rest => if String.eqb k k' then Some v else dict_get k rest
  end.

(** [d[k] = v]: an existing key keeps its place, a new one goes last. *)
Fixpoint dict_set (k : string) (v : json) (d : dict) : dict :=
  match d with
  | [] => [(k, v)]
  | (k', v') :: rest =>
      if String.eqb k k' then (k', v) :: rest else (k', v') :: dict_set k v rest
  end.

(** [x[k]] for a string [k]. *)
Definition subscript (x : json) (k : string) : outcome json :=
  match x with
  | JDict d =>
      match dict_get k d with
      | Some v => Return v
      | None => Throw (KeyError k)
      end
  | _ => Throw TypeError
  end.

(** [x[k] = v] for a string [k]. *)
Definition setitem (x : json) (k : string) (v : json) : outcome json :=
  match x with
  | JDict d => Return (JDict (dict_set k v d))
  | _ => Throw TypeError
  end.

(** [x != 200]. *)
Definition ne_200 (x : json) : bool :=
  match x with
  | JInt n => negb (n =? 200)%Z
  | JFloat r => if Req_dec_T r 200 then false else true
  | _ => true
  end.

(** The prayers that are kept and shown, in the order of the source. *)
Definition shown_prayers : list string :=
  ["Fajr"; "Sunrise"; "Dhuhr"; "Asr"; "Maghrib"; "Isha"; "Lastthird"]%string.

(** [k in shown_prayers]. *)
Definition is_shown (k : string) : bool := existsb (String.eqb k) shown_prayers.

(** The [params] of the request. *)
Record request : Type := mkrequest {
  url : string;
  latitude : R;
  longitude : R;
  method : Z;
  madhab : Z;
  date_sent : date;     (* sent as text, [%Y-%m-%d] *)
  timezonestring : string
}.

(** What the program prints: a line, or the prompt of [input]. *)
Inductive event : Type :=
| Printed (line : string)
| Prompted (prompt : string).

Record world : Type := mkworld { stdin : list string; stdout : list event }.

Definition io (A : Type) : Type := world -> world * outcome A.

Definition io_bind {A B : Type} (m : io A) (k : A -> io B) : io B :=
  fun w =>
    match m w with
    | (w', Return a) => k a w'
    | (w', Throw e) => (w', Throw e)
    end.

Notation "x <! m ;; k" := (io_bind m (fun x => k))
  (at level 61, m at next level, right associativity).

Definition io_of {A : Type} (r : outcome A) : io A := fun w => (w, r).

Definition print (line : string) : io unit :=
  fun w => (mkworld (stdin w) (stdout w ++ [Printed line]), Return tt).

(** [input(prompt)]: [EOFError] when the input is exhausted. *)
Definition input (prompt : string) : io string :=
  fun w =>
    let out := stdout w ++ [Prompted prompt] in
    match stdin w with
    | [] => (mkworld [] out, Throw EOFError)
    | line :: rest => (mkworld rest out, Return line)
    end.

Section WithEnvironment.

(** The zone database, the HTTP service with its JSON decoder, and the
    clock: the date [datetime.now()] gives at each of its three calls. *)
Variable tzdata : string -> option tzinfo.
Variable http_get : request -> outcome json.
Variables now_request now_asr now_night : date.

(** [last_third_time(sunset, fajr, timezone_str, now)] on values that need
    not be strings: [strptime] raises [TypeError] on the first one that is
    not, at the statement that reads it. *)
Definition call_last_third_time (sunset fajr : json) (timezone_str : string)
  (now : date) : outcome string :=
  match sunset, fajr with
  | JStr sunset_str, JStr fajr_str =>
      call (last_third_time tzdata sunset_str fajr_str timezone_str now)
  | JStr sunset_str, _ =>
      tz <~ call (pytz_timezone tzdata timezone_str) ;;
      hm <~ call (strptime_HM sunset_str) ;;
      sunset <~ call (datetime_new (year now) (month now) (day now)
                        (fst hm) (snd hm)) ;;
      Throw TypeError
  | _, _ =>
      tz <~ call (pytz_timezone tzdata timezone_str) ;;
      Throw TypeError
  end.

Definition get_prayer_times (latitude longitude : R) (madhhab : Z)
  (timezone_str : string) : outcome (dict * json) :=
  let madhab_api := if (madhhab =? 1)%Z then 0%Z else 1%Z in
  let url := "https://api.aladhan.com/v1/timings"%string in
  let params :=
    mkrequest url latitude longitude 5 madhab_api now_request timezone_str in
  data <~ http_get params ;;
  code <~ subscript data "code" ;;
  if ne_200 code then
    match data with
    | JDict d =>
        match dict_get "status" d with
        | None => Throw (APIError "API error: Unknown")
        | Some (JStr status) => Throw (APIError ("API error: " ++ status))
        | Some _ => Throw TypeError
        end
    | _ => Throw TypeError
    end
  else
    inner <~ subscript data "data" ;;
    timings <~ subscript inner "timings" ;;
    inner <~ subscript data "data" ;;
    date_obj <~ subscript inner "date" ;;
    gregorian <~ subscript date_obj "gregorian" ;;
    date_str <~ subscript gregorian "date" ;;
    let shadow_length := if (madhhab =? 1)%Z then 1%R else 2%R in
    asr_corrected <~ call (asr_time tzdata latitude longitude now_asr
                             shadow_length timezone_str) ;;
    timings <~ setitem timings "Asr" (JStr asr_corrected) ;;
    sunset <~ subscript timings "Sunset" ;;
    fajr <~ subscript timings "Fajr" ;;
    lastthird <~ call_last_third_time sunset fajr timezone_str now_night ;;
    timings <~ setitem timings "Lastthird" (JStr lastthird) ;;
    match timings with
    | JDict d =>
        let filtered_timings :=
          filter (fun kv => existsb (String.eqb (fst kv)) shown_prayers) d in
        Return (filtered_timings, date_str)
    | _ => Throw TypeError
    end.

(** The built-ins and the zone finder [main] calls: [float] and [int] on a
    string ([None] for the [ValueError]), [TimezoneFinder().timezone_at],
    and the text an f-string gives for a float and for a JSON value that
    is not a string. *)
Variable float_of_str : string -> option R.
Variable int_of_str : string -> option Z.
Variable timezone_at : R -> R -> outcome (option string).
Variable str_of_float : R -> string.
Variable repr_json : json -> string.

Definition str_of_json (x : json) : string :=
  match x with
  | JStr s => s
  | _ => repr_json x
  end.

Definition parse_float (s : string) : outcome R :=
  match float_of_str s with
  | Some x => Return x
  | None => Throw (Core (ValueError "could not convert string to float"))
  end.

Definition parse_int (s : string) : outcome Z :=
  match int_of_str s with
  | Some n => Return n
  | None => Throw (Core (ValueError "invalid literal for int() with base 10"))
  end.

(** The line [main] prints for a prayer, and the first prayer of a list
    that a table lacks. *)
Definition prayer_line (timings : dict) (prayer : string) : event :=
  Printed (prayer ++ ": "
           ++ str_of_json (match dict_get prayer timings with
                           | Some v => v
                           | None => JNull
                           end)).

Fixpoint first_missing (timings : dict) (prayers : list string)
  : option string :=
  match prayers with
  | [] => None
  | prayer :: rest =>
      match dict_get prayer timings with
      | Some _ => first_missing timings rest
      | None => Some prayer
      end
  end.

(** What [main] has printed when it reaches the header line. *)
Definition main_prelude (choice : Z) (found : option string) : list event :=
  [Printed "Enter your location to get today's prayer times:";
   Prompted "Latitude (e.g. 30.0444): ";
   Prompted "Longitude (e.g. 31.2357): ";
   Printed (String "010" "Choose Asr shadow length based on madhhab:");
   Printed "1 - Shafii/Hanbali/Maliki";
   Printed "2 - Hanafi";
   Prompted "Enter 1 or 2: "]
  ++ (if ((choice =? 1) || (choice =? 2))%Z then []
      else [Printed "Invalid choice, defaulting to Shafii/Hanbali/Maliki."])
  ++ (match found with
      | Some _ => []
      | None => [Printed "Warning: Could not detect timezone, using UTC."]
      end).

(** The header line of [main]. *)
Definition main_header (date_str : json) (lat lon : R) (timezone_str : string)
  : event :=
  Printed (String "010" "Prayer times for " ++ str_of_json date_str
           ++ " at (" ++ str_of_float lat ++ "," ++ str_of_float lon
           ++ ") â€” Timezone: " ++ timezone_str).

(** The [for] loop of [main] over the prayers still to print. *)
Fixpoint print_prayers (timings : dict) (prayers : list string) : io unit :=
  match prayers with
  | [] => io_of (Return tt)
  | prayer :: rest =>
      v <! io_of (subscript (JDict timings) prayer) ;;
      _ <! print (prayer ++ ": " ++ str_of_json v) ;;
      print_prayers timings rest
  end.

Definition main : io unit :=
  _ <! print "Enter your location to get today's prayer times:" ;;
  s <! input "Latitude (e.g. 30.0444): " ;;
  lat <! io_of (parse_float s) ;;
  s <! input "Longitude (e.g. 31.2357): " ;;
  lon <! io_of (parse_float s) ;;
  _ <! print (String "010" "Choose Asr shadow length based on madhhab:") ;;
  _ <! print "1 - Shafii/Hanbali/Maliki" ;;
  _ <! print "2 - Hanafi" ;;
  s <! input "Enter 1 or 2: " ;;
  madhhab <! io_of (parse_int s) ;;
  madhhab <! (if negb ((madhhab =? 1)%Z || (madhhab =? 2)%Z)
              then
                _ <! print "Invalid choice, defaulting to Shafii/Hanbali/Maliki." ;;
                io_of (Return 1%Z)
              else io_of (Return madhhab)) ;;
  found <! io_of (timezone_at lat lon) ;;
  timezone_str <! (match found with
                   | None =>
                       _ <! print "Warning: Could not detect timezone, using UTC." ;;
                       io_of (Return "UTC"%string)
                   | Some name => io_of (Return name)
                   end) ;;
  r <! io_of (get_prayer_times lat lon madhhab timezone_str) ;;
  let '(timings, date_str) := r in
  _ <! print (String "010" "Prayer times for " ++ str_of_json date_str
              ++ " at (" ++ str_of_float lat ++ "," ++ str_of_float lon
              ++ ") â€” Timezone: " ++ timezone_str) ;;
  print_prayers timings shown_prayers.

End WithEnvironment.

(** An environment for the worked examples: the answer of the service on
    2000-01-01 near Mecca, an error answer for a zone the service does not
    know, and stand-ins for the built-ins of [main]. *)
Definition example_timings : dict :=
  [("Fajr", JStr "05:38"); ("Sunrise", JStr "06:59"); ("Dhuhr", JStr "12:24");
   ("Asr", JStr "15:27"); ("Sunset", JStr "17:49"); ("Maghrib", JStr "17:49");
   ("Isha", JStr "19:19"); ("Imsak", JStr "05:28");
   ("Midnight", JStr "00:24")]%string.

Definition example_answer : dict :=
  [("code", JInt 200); ("status", JStr "OK");
   ("data",
    JDict [("timings", JDict example_timings);
           ("date",
            JDict [("readable", JStr "01 Jan 2000");
                   ("gregorian", JDict [("date", JStr "01-01-2000")])])])
  ]%string.

Definition example_error : dict :=
  [("code", JInt 400); ("status", JStr "Bad Request")]%string.

Definition example_http_get (r : request) : outcome json :=
  if String.eqb (timezonestring r) "Atlantis/Poseidonis"
  then Return (JDict example_error)
  else Return (JDict example_answer).

Definition example_float_of_str (s : string) : option R :=
  if String.eqb s "21.4225" then Some 21.4225%R
  else if String.eqb s "39.8262" then Some 39.8262%R
  else None.

Definition example_int_of_str (s : string) : option Z :=
  if String.eqb s "1" then Some 1%Z
  else if String.eqb s "2" then Some 2%Z
  else if String.eqb s "7" then Some 7%Z
  else None.

Definition example_timezone_at (lat lon : R) : outcome (option string) :=
  Return None.

(** A zone finder that names a zone the service rejects. *)
Definition example_zone_lost (lat lon : R) : outcome (option string) :=
  Return (Some "Atlantis/Poseidonis"%string).

Definition example_str_of_float (x : R) : string := "<float>".

Definition example_repr_json (x : json) : string := "<json>".

(** The table [get_prayer_times] builds from [example_timings] when the
    computed Asr time is [asr]. *)
Definition example_table (asr : string) : dict :=
  [("Fajr", JStr "05:38"); ("Sunrise", JStr "06:59"); ("Dhuhr", JStr "12:24");
   ("Asr", JStr asr); ("Maghrib", JStr "17:49"); ("Isha", JStr "19:19");
   ("Lastthird", JStr "01:41")]%string.

End App.


(** ** Proof automation *)

(** Linear integer arithmetic with division and remainder by literals. *)
Ltac zlia := Z.to_euclidean_division_equations; lia.

(** Case analysis on the condition of a conditional. *)
Ltac break_if :=
  match goal with
  | |- context [if ?b then _ else _] => destruct b eqn:?
  | H : context [if ?b then _ else _] |- _ => destruct b eqn:?
  end.

(** [solar_declination] as one expression in [JD]. *)
Ltac unfold_solar_declination :=
  unfold Prayer.solar_declination, Prayer.solar_declination_locals;
  cbv zeta; cbn [Prayer.Declination.sin_decl].

(** ** Facts about the calendar *)

Module CalendarFacts.
Import Calendar Spec.
Local Open Scope Z_scope.

Lemma julian_day_jd_int y m d :
  julian_day y m d = (inject_Z (jd_int y m d) - 1524.5)%Q.
Proof.
  unfold julian_day, jd_int. destruct (m <=? 2); reflexivity.
Qed.

Lemma int_of_Q_year z : 0 <= z -> int_of_Q (365.25 * inject_Z z) = (1461 * z) / 4.
Proof.
  intros Hz. unfold int_of_Q. cbn [Qmult Qnum Qden inject_Z].
  change (Z.pos (100 * 1)) with 100.
  rewrite Z.quot_div_nonneg by lia.
  replace (36525 * z) with (25 * (1461 * z)) by ring.
  change 100 with (25 * 4). now rewrite Z.div_mul_cancel_l.
Qed.

(** The month term of [julian_day] is evaluated on each concrete month. *)
Ltac eval_month_terms :=
  repeat match goal with
    | |- context [int_of_Q (30.6001 * inject_Z ?k)] =>
        let v := eval vm_compute in (int_of_Q (30.6001 * inject_Z k)) in
        change (int_of_Q (30.6001 * inject_Z k)) with v
    end.

Lemma jd_int_next d :
  gregorian d = true -> -4712 <= year d ->
  jd_int (year (next_day d)) (month (next_day d)) (day (next_day d))
  = jd_int (year d) (month d) (day d) + 1.
Proof.
  destruct d as [y m dd]. unfold gregorian, next_day. cbn [year month day].
  intros Hg Hy.
  assert (Hm : m = 1 \/ m = 2 \/ m = 3 \/ m = 4 \/ m = 5 \/ m = 6 \/ m = 7
               \/ m = 8 \/ m = 9 \/ m = 10 \/ m = 11 \/ m = 12) by lia.
  unfold days_in_month, is_leap in *.
  repeat (destruct Hm as [Hm | Hm]); subst m;
    repeat break_if; cbn [year month day]; unfold jd_int;
    repeat break_if; try lia.
  all: rewrite !int_of_Q_year by lia; eval_month_terms; zlia.
Qed.

Lemma int_of_Q_floor x : 0 <= Qnum x -> int_of_Q x = Qfloor x.
Proof.
  destruct x as [n p]. cbn [Qnum]. intros Hn.
  unfold int_of_Q, Qfloor. cbn [Qnum Qden].
  apply Z.quot_div_nonneg; lia.
Qed.

(** C5.  For every Gregorian date whose Julian Day is not negative (years
    from -4712 on, which covers every [datetime.date]), [julian_day] is the
    Gregorian-to-Julian-Day conversion in which January and February count
    as months 13 and 14 of the year before, and [julian_day] of the next
    calendar day is [julian_day] of the day plus exactly one. *)
Theorem julian_day_next_day (d : date) :
  gregorian d = true -> -4712 <= year d ->
  julian_day_of d
  = (if month d <=? 2
     then gregorian_to_jd (year d - 1) (month d + 12) (day d)
     else gregorian_to_jd (year d) (month d) (day d))
  /\ (julian_day_of (next_day d) - julian_day_of d == 1)%Q.
Proof.
  intros Hg Hy. split.
  - unfold julian_day_of, julian_day, gregorian_to_jd, gregorian in *.
    destruct (month d <=? 2) eqn:Hm;
      rewrite !int_of_Q_floor by (cbn [Qmult Qnum inject_Z]; lia);
      reflexivity.
  - unfold julian_day_of.
    rewrite !julian_day_jd_int, (jd_int_next d Hg Hy), inject_Z_plus.
    ring.
Qed.

Lemma julian_day_next_day_witness :
  gregorian (mkdate 2024 2 29) = true /\ -4712 <= 2024 /\
  (julian_day_of (next_day (mkdate 2024 2 29))
   - julian_day_of (mkdate 2024 2 29) == 1)%Q.
Proof.
  split; [reflexivity | split; [lia |]].
  apply (julian_day_next_day (mkdate 2024 2 29)); [reflexivity | cbn; lia].
Defined.


End CalendarFacts.

(** ** Facts about [datetime] *)

Module DatetimeFacts.
Import Calendar Datetime Spec.
Local Open Scope Z_scope.

Lemma digit_of_range c a : digit_of c = Some a -> 0 <= a <= 9.
Proof.
  unfold digit_of. intros H. break_if; [| discriminate].
  injection H as <-. lia.
Qed.

Ltac split_matches H :=
  repeat match type of H with
    | In _ (_ ++ _) => apply in_app_or in H; destruct H as [H | H]
    | In _ (_ :: _) => destruct H as [H | H]
    | In _ [] => destruct H
    | (_, _) = (_, _) => apply pair_equal_spec in H; destruct H as [<- <-]
    | context [match ?x with _ => _ end] => destruct x eqn:?
    end.

Lemma match_H_range s h r : In (h, r) (match_H s) -> 0 <= h <= 23.
Proof.
  unfold match_H. intros H. split_matches H;
    repeat match goal with
      | H : digit_of _ = Some _ |- _ => apply digit_of_range in H
      end; lia.
Qed.

Lemma match_M_range s m r : In (m, r) (match_M s) -> 0 <= m <= 59.
Proof.
  unfold match_M. intros H. split_matches H;
    repeat match goal with
      | H : digit_of _ = Some _ |- _ => apply digit_of_range in H
      end; lia.
Qed.

(** A time [strptime] accepts is a time of day. *)
Lemma strptime_HM_range s h m :
  strptime_HM s = Ok (h, m) -> 0 <= h <= 23 /\ 0 <= m <= 59.
Proof.
  unfold strptime_HM.
  set (after_colon := fun hr : Z * string => _).
  destruct (flat_map after_colon (match_H s)) as [| [[h' m'] r] l] eqn:E;
    [discriminate |].
  intros H. destruct r; [| discriminate]. injection H as -> ->.
  assert (Hin : In (h, m, EmptyString) (flat_map after_colon (match_H s)))
    by (rewrite E; left; reflexivity).
  apply in_flat_map in Hin. destruct Hin as [[h0 r0] [Hh Hm]].
  unfold after_colon in Hm. cbn [fst snd] in Hm.
  destruct r0 as [| c r0]; [destruct Hm |].
  destruct (ascii_dec c ":") as [-> | Hc].
  - apply in_map_iff in Hm. destruct Hm as [[m0 r1] [Heq Hm]].
    cbn [fst snd] in Heq. injection Heq as E1 E2 E3. subst h0 m0 r1.
    split; [eapply match_H_range | eapply match_M_range]; eassumption.
  - exfalso. revert Hm. clear -Hc.
    destruct c as [[] [] [] [] [] [] [] []]; cbn; tauto.
Qed.

End DatetimeFacts.

(** ** Facts about [last_third_time] *)

Module NightFacts.
Import Calendar Datetime Spec Prayer DatetimeFacts.
Local Open Scope Z_scope.

Lemma days_before_month_nonneg y m : 0 <= days_before_month y m.
Proof.
  unfold days_before_month.
  assert (0 <= nth (Z.to_nat m)
                 [0; 0; 31; 59; 90; 120; 151; 181; 212; 243; 273; 304; 334] 0).
  { generalize (Z.to_nat m) as n. intros n.
    do 13 (destruct n as [| n]; [cbn; lia |]). destruct n; cbn; lia. }
  break_if; lia.
Qed.

Lemma ymd2ord_pos d : pydate d = true -> 1 <= ymd2ord (year d) (month d) (day d).
Proof.
  unfold pydate, gregorian, ymd2ord, MINYEAR. intros H.
  pose proof (days_before_month_nonneg (year d) (month d)).
  assert (0 <= days_before_year (year d)) by (unfold days_before_year; zlia).
  lia.
Qed.

Lemma datetime_new_ok d h mi :
  pydate d = true -> 0 <= h <= 23 -> 0 <= mi <= 59 ->
  datetime_new (year d) (month d) (day d) h mi
  = Ok (ymd2ord (year d) (month d) (day d) * usec_per_day
        + (h * 3600 + mi * 60) * 1000000).
Proof.
  intros Hd Hh Hm. unfold datetime_new, pydate, gregorian in *.
  repeat break_if; try lia.
  f_equal. unfold usec_per_hour, usec_per_minute. ring.
Qed.

Lemma toordinal_day o s :
  0 <= s < 86400 -> toordinal (o * usec_per_day + s * 1000000) = o.
Proof. unfold toordinal, usec_per_day. intros Hs. zlia. Qed.

Lemma datetime_add_seconds o s1 s2 :
  1 <= o -> 0 <= s1 + s2 -> o + (s1 + s2) / 86400 <= MAXORDINAL ->
  datetime_add (o * usec_per_day + s1 * 1000000) (s2 * 1000000)
  = Ok (o * usec_per_day + (s1 + s2) * 1000000).
Proof.
  intros Ho Hs Hmax. unfold datetime_add.
  replace (o * usec_per_day + s1 * 1000000 + s2 * 1000000)
    with (o * usec_per_day + (s1 + s2) * 1000000) by ring.
  replace (toordinal (o * usec_per_day + (s1 + s2) * 1000000))
    with (o + (s1 + s2) / 86400) by (unfold toordinal, usec_per_day; zlia).
  cbv zeta. break_if; [reflexivity | zlia].
Qed.

(** The clock of a [datetime] that lies [s] seconds after a midnight. *)
Lemma strftime_HM_seconds o s :
  0 <= s -> strftime_HM (o * usec_per_day + s * 1000000) = clock_HM s.
Proof.
  intros Hs. unfold strftime_HM, clock_HM, hour, minute.
  unfold usec_per_day, usec_per_hour, usec_per_minute.
  assert (Hh : (o * 86400000000 + s * 1000000) mod 86400000000 / 3600000000
               = (s / 3600) mod 24) by zlia.
  assert (Hm : ((o * 86400000000 + s * 1000000) mod 86400000000)
                 mod 3600000000 / 60000000 = (s / 60) mod 60) by zlia.
  now rewrite Hh, Hm.
Qed.

Section LastThird.

Variable tzdata : string -> option tzinfo.

(** Two thirds of a whole number of minutes is a whole number of
    microseconds, so [timedelta / 3] does not round. *)
Lemma two_thirds_exact s :
  timedelta_truediv (s * 60 * 1000000 * 2) 3 = Ok (s * 40 * 1000000).
Proof.
  unfold timedelta_truediv, divide_and_round.
  replace (s * 60 * 1000000 * 2) with (s * 40 * 1000000 * 3) by ring.
  rewrite Z.div_mul, Z.mod_mul by lia. reflexivity.
Qed.

Lemma last_third_time_eq sunset_str fajr_str tz z d hs ms hf mf :
  tzdata tz = Some z -> pydate d = true ->
  ymd2ord (year d) (month d) (day d) < MAXORDINAL ->
  strptime_HM sunset_str = Ok (hs, ms) ->
  strptime_HM fajr_str = Ok (hf, mf) ->
  last_third_time tzdata sunset_str fajr_str tz d
  = Ok (clock_HM (spec_last_third (hs * 3600 + ms * 60) (hf * 3600 + mf * 60))).
Proof.
  intros Htz Hd Hmax Hs Hf.
  destruct (strptime_HM_range _ _ _ Hs) as [Hhs Hms].
  destruct (strptime_HM_range _ _ _ Hf) as [Hhf Hmf].
  pose proof (ymd2ord_pos d Hd) as Hpos.
  unfold last_third_time, pytz_timezone. rewrite Htz, Hs, Hf. cbn [bind fst snd].
  rewrite !datetime_new_ok by assumption. cbn [bind].
  set (o := ymd2ord (year d) (month d) (day d)) in *.
  set (S := hs * 3600 + ms * 60). set (F := hf * 3600 + mf * 60).
  assert (HS : 0 <= S < 86400) by (subst S; lia).
  assert (HF : 0 <= F < 86400) by (subst F; lia).
  unfold spec_last_third. fold S F.
  replace (o * usec_per_day + F * 1000000 <=? o * usec_per_day + S * 1000000)
    with (F <=? S) by (unfold usec_per_day; lia).
  destruct (F <=? S) eqn:Hcmp.
  - unfold datetime_add at 1.
    replace (o * usec_per_day + F * 1000000 + usec_per_day)
      with ((o + 1) * usec_per_day + F * 1000000) by ring.
    rewrite toordinal_day by lia.
    replace ((0 <? o + 1) && (o + 1 <=? MAXORDINAL)) with true by lia.
    cbn [bind].
    replace (((o + 1) * usec_per_day + F * 1000000
              - (o * usec_per_day + S * 1000000)) * 2)
      with (((F + 86400 - S) / 60) * 60 * 1000000 * 2)
      by (unfold usec_per_day; subst S F; zlia).
    rewrite two_thirds_exact. cbn [bind].
    rewrite datetime_add_seconds by zlia. cbn [bind].
    rewrite strftime_HM_seconds by zlia.
    do 2 f_equal. subst S F. zlia.
  - cbn [bind].
    replace ((o * usec_per_day + F * 1000000 - (o * usec_per_day + S * 1000000)) * 2)
      with (((F - S) / 60) * 60 * 1000000 * 2) by (subst S F; zlia).
    rewrite two_thirds_exact. cbn [bind].
    rewrite datetime_add_seconds by zlia. cbn [bind].
    rewrite strftime_HM_seconds by zlia.
    do 2 f_equal. subst S F. zlia.
Qed.

End LastThird.

(** C2.  With a known zone and a reference date before 9999-12-31,
    [last_third_time] puts both clock times on the reference date, moves a
    dawn that is not after sunset (equality included, which makes a night of
    24 hours) to the following day, and returns sunset plus two thirds of
    the night as [HH:MM]; from 18:00 to 04:00 this is 00:40, and from 19:30
    to 05:00 it is 01:50. *)
Theorem last_third_time_two_thirds tzdata tz z d :
  tzdata tz = Some z -> pydate d = true ->
  ymd2ord (year d) (month d) (day d) < MAXORDINAL ->
  (forall sunset_str fajr_str hs ms hf mf,
      strptime_HM sunset_str = Ok (hs, ms) ->
      strptime_HM fajr_str = Ok (hf, mf) ->
      last_third_time tzdata sunset_str fajr_str tz d
      = Ok (clock_HM (spec_last_third (hs * 3600 + ms * 60)
                                      (hf * 3600 + mf * 60))))
  /\ (forall s hs ms,
         strptime_HM s = Ok (hs, ms) ->
         last_third_time tzdata s s tz d
         = Ok (clock_HM (hs * 3600 + ms * 60 + 57600)))
  /\ last_third_time tzdata "18:00" "04:00" tz d = Ok "00:40"%string
  /\ last_third_time tzdata "19:30" "05:00" tz d = Ok "01:50"%string.
Proof.
  intros Htz Hd Hmax. repeat split.
  - intros. now apply last_third_time_eq with (z := z).
  - intros s hs ms Hs.
    rewrite (last_third_time_eq tzdata s s tz z d hs ms hs ms) by assumption.
    unfold spec_last_third. rewrite Z.leb_refl. do 2 f_equal. zlia.
  - now rewrite (last_third_time_eq tzdata "18:00" "04:00" tz z d 18 0 4 0).
  - now rewrite (last_third_time_eq tzdata "19:30" "05:00" tz z d 19 30 5 0).
Qed.

Lemma last_third_time_two_thirds_witness :
  last_third_time example_tzdata "18:00" "04:00" "UTC" (mkdate 2024 11 3)
  = Ok "00:40"%string.
Proof.
  apply (last_third_time_two_thirds example_tzdata "UTC" (mktz (fun _ => 0))
           (mkdate 2024 11 3)); [reflexivity | reflexivity | reflexivity].
Defined.

(** C10.  [last_third_time] gives the same outcome under any two known
    zones: the zone is looked up and then plays no part. *)
Theorem last_third_time_any_zone tzdata tz1 tz2 z1 z2 sunset_str fajr_str d :
  tzdata tz1 = Some z1 -> tzdata tz2 = Some z2 ->
  last_third_time tzdata sunset_str fajr_str tz1 d
  = last_third_time tzdata sunset_str fajr_str tz2 d.
Proof.
  intros H1 H2. unfold last_third_time, pytz_timezone.
  rewrite H1, H2. reflexivity.
Qed.

Lemma last_third_time_any_zone_witness :
  last_third_time example_tzdata "19:30" "05:00" "UTC" (mkdate 2024 11 3)
  = last_third_time example_tzdata "19:30" "05:00" "Asia/Riyadh"
      (mkdate 2024 11 3).
Proof.
  apply (last_third_time_any_zone example_tzdata "UTC" "Asia/Riyadh"
           (mktz (fun _ => 0)) (mktz (fun _ => 10800)));
    reflexivity.
Defined.

(** An unknown zone name stops [last_third_time] at its first statement. *)
Lemma last_third_time_unknown_zone tzdata tz sunset_str fajr_str d :
  tzdata tz = None ->
  last_third_time tzdata sunset_str fajr_str tz d
  = Raise (UnknownTimeZoneError tz).
Proof.
  intros H. unfold last_third_time, pytz_timezone. now rewrite H.
Qed.

End NightFacts.

(** ** Facts about the binary64 clamp *)

Module Binary64Facts.
Import Binary64.
Local Open Scope float_scope.

Lemma ltb_leb a b : PrimFloat.ltb a b = true -> PrimFloat.leb a b = true.
Proof.
  rewrite ltb_spec, leb_spec. unfold SFltb, SFleb.
  destruct (SFcompare _ _) as [[ | | ] |]; congruence.
Qed.

(** Whatever binary64 value comes in, NaN and the infinities included, the
    clamp lies in [[-1, 1]]. *)
Lemma clamp64_range x :
  PrimFloat.leb (-1) (clamp x) && PrimFloat.leb (clamp x) 1 = true.
Proof.
  unfold clamp, py_max, py_min.
  destruct (PrimFloat.ltb (-1) x) eqn:H1.
  - destruct (PrimFloat.ltb x 1) eqn:H2.
    + now rewrite (ltb_leb _ _ H1), (ltb_leb _ _ H2).
    + reflexivity.
  - reflexivity.
Qed.

Lemma clamp64_accepted x : acos_accepts (clamp x) = true.
Proof. unfold acos_accepts. rewrite clamp64_range. apply orb_true_r. Qed.

Example clamp_nan : clamp nan = (-1)%float.
Proof. reflexivity. Qed.

Example clamp_overshoot : clamp 0x1.0000000000001p+0 = 1%float.
Proof. reflexivity. Qed.

End Binary64Facts.

(** ** Facts about the [math] functions *)

Module PyMathFacts.
Import PyMath Spec.
Local Open Scope R_scope.

Lemma float_mod_range x y : 0 < y -> 0 <= float_mod x y < y.
Proof.
  intros Hy. unfold float_mod.
  destruct (Zfloor_bound (x / y)) as [Hl Hu].
  assert (Hx : x = x / y * y) by (field; lra).
  split.
  - apply Rmult_le_compat_r with (r := y) in Hl; lra.
  - apply Rmult_lt_compat_r with (r := y) in Hu; lra.
Qed.

Lemma float_mod_360 x : is_mod360 x (float_mod x 360).
Proof.
  split; [apply float_mod_range; lra |].
  exists (Zfloor (x / 360)). unfold float_mod. ring.
Qed.

(** The clamp of [asr_time]. *)
Lemma clamp_range x : -1 <= py_min 1 (py_max (-1) x) <= 1.
Proof.
  unfold py_min, py_max.
  destruct (Rlt_dec (-1) x); destruct (Rlt_dec _ 1); lra.
Qed.

Lemma clamp_id x : -1 <= x <= 1 -> py_min 1 (py_max (-1) x) = x.
Proof.
  intros Hx. unfold py_min, py_max.
  destruct (Rlt_dec (-1) x); destruct (Rlt_dec _ 1); lra.
Qed.

Lemma clamp_mono x y :
  x <= y -> py_min 1 (py_max (-1) x) <= py_min 1 (py_max (-1) y).
Proof.
  intros Hxy. unfold py_min, py_max.
  destruct (Rlt_dec (-1) x); destruct (Rlt_dec (-1) y);
    repeat match goal with |- context [Rlt_dec ?a ?b] => destruct (Rlt_dec a b) end;
    lra.
Qed.

Lemma math_acos_ok x : -1 <= x <= 1 -> math_acos x = Ok (acos x).
Proof.
  intros Hx. unfold math_acos. destruct (in_unit_interval x); tauto.
Qed.

Lemma math_asin_ok x : -1 <= x <= 1 -> math_asin x = Ok (asin x).
Proof.
  intros Hx. unfold math_asin. destruct (in_unit_interval x); tauto.
Qed.

Lemma sin_mul_sin_range a b : -1 <= sin a * sin b <= 1.
Proof.
  pose proof (SIN_bound a). pose proof (SIN_bound b). nra.
Qed.

End PyMathFacts.

(** ** Facts about the solar position and the Asr time *)

Module SolarFacts.
Import Calendar Datetime PyMath Spec Prayer PyMathFacts.
Local Open Scope R_scope.

(** [asr_time] is [asr_utc] followed by [asr_clock]. *)
Lemma asr_time_stages tzdata lat lon d shadow_len tz :
  asr_time tzdata lat lon d shadow_len tz
  = (u <- asr_utc lat lon d shadow_len ;; asr_clock tzdata u d tz).
Proof.
  unfold asr_time, asr_utc, asr_clock. cbv zeta.
  destruct (solar_declination _); [cbn [bind] | reflexivity].
  destruct (float_div 1 shadow_len); [cbn [bind] | reflexivity].
  destruct (float_div _ _); [cbn [bind] | reflexivity].
  destruct (math_acos _); reflexivity.
Qed.

(** C7.  When [solar_declination] reaches its [return] statement, its
    local variables hold: [n = JD - 2451545.0]; [g], in radians (degrees
    times [PI / 180]), the mean anomaly [357.529 + 0.98560028 n] reduced
    modulo 360 degrees into [[0, 360)]; [q], the mean longitude
    [280.459 + 0.98564736 n] reduced in the same way; [L], the ecliptic
    longitude [q + 1.915 sin g + 0.020 sin 2g] reduced in the same way;
    [e], in radians, the obliquity [23.439 - 0.00000036 n]; and
    [sin_decl], the sine of [e] times the sine of [L] in radians.  This
    holds whatever the sign of [n]; the function never raises and returns
    [asin sin_decl]. *)
Theorem solar_declination_formula (JD : R) :
  let v := solar_declination_locals JD in
  Declination.n v = JD - 2451545.0 /\
  (exists g_deg : R,
      is_mod360 (357.529 + 0.98560028 * Declination.n v) g_deg /\
      Declination.g v = g_deg * PI / 180) /\
  is_mod360 (280.459 + 0.98564736 * Declination.n v) (Declination.q v) /\
  is_mod360 (Declination.q v + 1.915 * sin (Declination.g v)
             + 0.020 * sin (2 * Declination.g v)) (Declination.L v) /\
  Declination.e v = (23.439 - 0.00000036 * Declination.n v) * PI / 180 /\
  Declination.sin_decl v
  = sin (Declination.e v) * sin (Declination.L v * PI / 180) /\
  solar_declination JD = Ok (asin (Declination.sin_decl v)).
Proof.
  intros v. subst v. unfold solar_declination, solar_declination_locals.
  cbv zeta.
  cbn [Declination.n Declination.g Declination.q Declination.L
       Declination.e Declination.sin_decl].
  assert (Hr : forall x, radians x = x * PI / 180)
    by (intros x; unfold radians; field).
  split; [reflexivity |].
  split; [eexists; split; [apply float_mod_360 | apply Hr] |].
  split; [apply float_mod_360 |].
  split; [apply float_mod_360 |].
  split; [apply Hr |]. split; [now rewrite <- Hr |].
  apply math_asin_ok, sin_mul_sin_range.
Qed.

(** C3.  Whatever the Julian Day, the equation of time in hours, after the
    single correction by 24, lies in [[-12, 12]]; [equation_of_time] returns
    that value times 60. *)
Theorem eq_time_hours_range (JD : R) :
  -12 <= eq_time_hours JD <= 12 /\
  equation_of_time JD = eq_time_hours JD * 60.
Proof.
  split; [| reflexivity].
  unfold eq_time_hours. cbv zeta.
  set (q := float_mod (280.459 + 0.98564736 * (JD - 2451545.0)) 360).
  set (RA := float_mod _ 360).
  assert (Hq : 0 <= q < 360) by (apply float_mod_range; lra).
  assert (HRA : 0 <= RA < 360) by (apply float_mod_range; lra).
  destruct (Rlt_dec 12 (q / 15 - RA / 15));
    [| destruct (Rlt_dec (q / 15 - RA / 15) (-12))]; lra.
Qed.

(** C8.  [solar_noon] is [12 - longitude/15 - eqt/60] with [eqt] the
    equation of time in minutes for the same Julian Day, that is, 12 minus
    the longitude in hours minus the equation of time in hours, so that
    noon comes earlier in UTC as the longitude grows eastwards. *)
Theorem solar_noon_formula (longitude JD : R) :
  solar_noon longitude JD = 12 - longitude / 15 - equation_of_time JD / 60
  /\ solar_noon longitude JD = 12 - longitude / 15 - eq_time_hours JD
  /\ forall longitude',
       longitude < longitude' -> solar_noon longitude' JD < solar_noon longitude JD.
Proof.
  split; [reflexivity |]. split.
  - unfold solar_noon, equation_of_time. cbv zeta. lra.
  - intros l' Hl. unfold solar_noon. cbv zeta. lra.
Qed.

Lemma solar_noon_formula_witness : solar_noon 15 2451545 < solar_noon 0 2451545.
Proof.
  apply (proj2 (proj2 (solar_noon_formula 0 2451545)) 15). lra.
Defined.

Lemma solar_declination_ok (JD : R) : exists decl, solar_declination JD = Ok decl.
Proof.
  unfold_solar_declination.
  rewrite math_asin_ok by apply sin_mul_sin_range. eexists; reflexivity.
Qed.

Lemma datetime_new_raises y m d h mi e :
  datetime_new y m d h mi = Raise e -> exists msg, e = ValueError msg.
Proof.
  unfold datetime_new. intros H.
  repeat break_if; try discriminate; injection H as <-; eexists; reflexivity.
Qed.

Lemma asr_clock_raises tzdata u d tz e :
  asr_clock tzdata u d tz = Raise e ->
  (exists msg, e = ValueError msg) \/ e = UnknownTimeZoneError tz
  \/ e = OverflowError.
Proof.
  unfold asr_clock, pytz_timezone, astimezone, datetime_add. cbv zeta.
  destruct (datetime_new _ _ _ _ _) eqn:Hdt; cbn [bind].
  - destruct (tzdata tz); cbn [bind].
    + break_if; cbn [bind]; [discriminate |].
      intros H; injection H as <-. tauto.
    + intros H; injection H as <-. tauto.
  - intros H; injection H as <-. left. eapply datetime_new_raises; eassumption.
Qed.

End SolarFacts.

(** ** Quadrants, monotonicity and reductions *)

Module TrigFacts.
Import PyMath PyMathFacts.
Local Open Scope R_scope.

Lemma float_mod_small x y : 0 <= x < y -> float_mod x y = x.
Proof.
  intros Hx. unfold float_mod.
  assert (Hy : 0 < y) by lra.
  rewrite (Zfloor_eq 0); [ring |].
  split.
  - apply Rmult_le_reg_r with (r := y); [assumption |].
    unfold Rdiv. rewrite Rmult_assoc, Rinv_l by lra. lra.
  - apply Rmult_lt_reg_r with (r := y); [assumption |].
    unfold Rdiv. rewrite Rmult_assoc, Rinv_l by lra. lra.
Qed.

Lemma float_mod_negative x y : - y <= x < 0 -> float_mod x y = x + y.
Proof.
  intros Hx. unfold float_mod.
  assert (Hy : 0 < y) by lra.
  rewrite (Zfloor_eq (-1)); [ring |].
  split.
  - apply Rmult_le_reg_r with (r := y); [assumption |].
    unfold Rdiv. rewrite Rmult_assoc, Rinv_l by lra. lra.
  - apply Rmult_lt_reg_r with (r := y); [assumption |].
    unfold Rdiv. rewrite Rmult_assoc, Rinv_l by lra. lra.
Qed.

(** Signs of sine and cosine by quadrant, on angles in degrees. *)
Lemma first_quadrant d :
  0 < d < 90 -> 0 < radians d < PI / 2 /\ 0 < sin (radians d) /\ 0 < cos (radians d).
Proof.
  intros Hd. pose proof PI_RGT_0 as Hpi.
  assert (Hr : 0 < radians d < PI / 2) by (unfold radians; nra).
  split; [assumption |]. split.
  - apply sin_gt_0; lra.
  - apply cos_gt_0; lra.
Qed.

Lemma fourth_quadrant d :
  270 < d < 360 -> sin (radians d) < 0 /\ 0 < cos (radians d).
Proof.
  intros Hd. pose proof PI_RGT_0 as Hpi.
  assert (Hr : - (PI / 2) < radians d - 2 * PI < 0) by (unfold radians; nra).
  replace (radians d) with (radians d - 2 * PI + 2 * INR 1 * PI)
    by (cbn [INR]; ring).
  rewrite sin_period, cos_period. split.
  - apply sin_lt_0_var; lra.
  - apply cos_gt_0; lra.
Qed.

Lemma acos_antitone x y : -1 <= x -> x <= y -> y <= 1 -> acos y <= acos x.
Proof.
  intros Hx Hxy Hy.
  destruct (Rle_dec (acos y) (acos x)) as [H | H]; [assumption | exfalso].
  apply Rnot_le_lt in H.
  pose proof (acos_bound x) as Bx. pose proof (acos_bound y) as By.
  assert (Hc : cos (acos y) < cos (acos x))
    by (apply cos_decreasing_1; lra).
  rewrite !cos_acos in Hc by lra. lra.
Qed.

Lemma atan2_right y x : 0 < x -> atan2 y x = atan (y / x).
Proof.
  intros Hx. unfold atan2.
  destruct (total_order_T x 0) as [[H | H] | H]; lra.
Qed.

Lemma degrees_radians d : degrees (radians d) = d.
Proof. unfold degrees, radians. field. apply PI_neq0. Qed.

End TrigFacts.

(** ** The sun in the fourth quadrant of the ecliptic *)

Module WinterFacts.
Import Calendar Datetime PyMath Spec Prayer PyMathFacts SolarFacts TrigFacts.
Local Open Scope R_scope.

Section Winter.

(** A Julian Day at which the mean longitude of the sun, unreduced, lies
    between 272 and 358 degrees, and the obliquity between 0 and 30 degrees:
    the sun is in the fourth quadrant of the ecliptic. *)
Variable JD : R.
Let n := JD - 2451545.0.
Let q := 280.459 + 0.98564736 * n.
Hypothesis q_range : 272 <= q <= 358.
Hypothesis e_range : 0 < 23.439 - 0.00000036 * n <= 30.

Lemma winter_ecliptic_longitude g :
  let L := float_mod (float_mod q 360 + 1.915 * sin g + 0.020 * sin (2 * g)) 360 in
  270 < L < 360.
Proof.
  intros L. subst L.
  pose proof (SIN_bound g). pose proof (SIN_bound (2 * g)).
  rewrite (float_mod_small q) by lra.
  rewrite float_mod_small; lra.
Qed.

Lemma winter_eq_time_hours :
  (q - 360) / 15 < eq_time_hours JD < (q - 270) / 15.
Proof.
  unfold eq_time_hours. fold n. cbv zeta. fold q.
  set (g := radians (float_mod (357.529 + 0.98560028 * n) 360)).
  pose proof (winter_ecliptic_longitude g) as HL. cbv zeta in HL.
  set (L := float_mod (float_mod q 360 + _ + _) 360) in *.
  destruct (fourth_quadrant L HL) as [Hsin Hcos].
  set (e := radians (23.439 - 0.00000036 * n)).
  assert (He : 0 < cos e).
  { destruct e_range as [He1 He2].
    destruct (Rle_lt_or_eq_dec _ _ He2) as [Hlt | Heq].
    - apply first_quadrant. lra.
    - subst e. rewrite Heq. apply first_quadrant. lra. }
  rewrite atan2_right by assumption.
  set (y := cos e * sin (radians L) / cos (radians L)).
  assert (Hy : y < 0).
  { unfold y. apply Rmult_lt_reg_r with (r := cos (radians L)); [assumption |].
    unfold Rdiv. rewrite Rmult_assoc, Rinv_l by lra. nra. }
  assert (Ha : - (PI / 2) < atan y < 0).
  { pose proof (atan_bound y). split; [lra |].
    rewrite <- atan_0. now apply atan_increasing. }
  assert (Hd : -90 < degrees (atan y) < 0).
  { unfold degrees. pose proof PI_RGT_0.
    replace (-90) with (- (PI / 2) * (180 / PI)) by (field; lra).
    assert (0 < 180 / PI) by (apply Rdiv_lt_0_compat; lra).
    split; [apply Rmult_lt_compat_r; lra | nra]. }
  rewrite (float_mod_negative (degrees (atan y))) by lra.
  rewrite (float_mod_small q) by lra.
  destruct (Rlt_dec 12 _); [lra |].
  destruct (Rlt_dec _ (-12)); lra.
Qed.

Lemma winter_declination :
  exists decl,
    solar_declination JD = Ok decl /\
    - (PI / 2) < decl < 0 /\ sin decl < 0 /\ sqrt 3 / 2 <= cos decl.
Proof.
  unfold_solar_declination. fold n. fold q.
  set (g := radians (float_mod (357.529 + 0.98560028 * n) 360)).
  pose proof (winter_ecliptic_longitude g) as HL. cbv zeta in HL.
  set (L := float_mod (float_mod q 360 + _ + _) 360) in *.
  destruct (fourth_quadrant L HL) as [Hsin _].
  set (e := radians (23.439 - 0.00000036 * n)).
  pose proof PI_RGT_0 as Hpi.
  assert (Her : 0 < e <= PI / 6) by (unfold e, radians; nra).
  assert (Hse : 0 < sin e) by (apply sin_gt_0; lra).
  assert (Hce : sqrt 3 / 2 <= cos e).
  { rewrite <- cos_PI6. apply cos_decr_1; lra. }
  pose proof (SIN_bound e) as Bse. pose proof (SIN_bound (radians L)) as BsL.
  set (s := sin e * sin (radians L)).
  assert (Hs : -1 <= s < 0) by (unfold s; nra).
  rewrite math_asin_ok by lra.
  exists (asin s).
  pose proof (asin_bound s) as Bd.
  assert (Hsd : sin (asin s) = s) by (apply sin_asin; lra).
  assert (Hneg : asin s < 0).
  { destruct (Rlt_dec (asin s) 0) as [H | H]; [assumption | exfalso].
    assert (0 <= sin (asin s)) by (apply sin_ge_0; lra). lra. }
  assert (Hcd : 0 <= cos (asin s)) by (apply cos_ge_0; lra).
  assert (Hs3 : 0 < sqrt 3 / 2).
  { apply Rdiv_lt_0_compat; [apply sqrt_lt_R0 |]; lra. }
  pose proof (sin2_cos2 (asin s)) as P1. pose proof (sin2_cos2 e) as P2.
  unfold Rsqr in P1, P2. rewrite Hsd in P1.
  assert (Hle : cos e <= cos (asin s)).
  { destruct (Rle_dec (cos e) (cos (asin s))) as [H | H]; [assumption | exfalso].
    apply Rnot_le_lt in H.
    assert (cos (asin s) * cos (asin s) < cos e * cos e) by nra.
    assert (HL2 : sin (radians L) * sin (radians L) <= 1) by nra.
    assert (0 <= sin e * sin e) by nra.
    assert (s * s <= sin e * sin e).
    { replace (s * s)
        with (sin e * sin e * (sin (radians L) * sin (radians L)))
        by (unfold s; ring).
      nra. }
    lra. }
  assert (Hlow : - (PI / 2) < asin s).
  { destruct (Rle_lt_or_eq_dec _ _ (proj1 Bd)) as [H | H]; [lra | exfalso].
    rewrite <- H in Hcd, Hle. rewrite cos_neg, cos_PI2 in Hle. lra. }
  repeat split; lra.
Qed.

End Winter.
End WinterFacts.

(** ** Ranges of the Julian Day and of the ordinal *)

Module RangeFacts.
Import Calendar Datetime PyMath Spec Prayer PyMathFacts SolarFacts TrigFacts.
Import CalendarFacts DatetimeFacts NightFacts.

Lemma jd_int_range d :
  pydate d = true ->
  (0 <= jd_int (year d) (month d) (day d) <= 6000000)%Z.
Proof.
  destruct d as [y m dd]. unfold pydate, gregorian, MINYEAR, MAXYEAR.
  cbn [year month day]. intros H.
  assert (Hm : (m = 1 \/ m = 2 \/ m = 3 \/ m = 4 \/ m = 5 \/ m = 6 \/ m = 7
               \/ m = 8 \/ m = 9 \/ m = 10 \/ m = 11 \/ m = 12)%Z) by lia.
  assert (Hd : (1 <= dd <= 31)%Z).
  { unfold days_in_month in H. repeat break_if; lia. }
  assert (Hy : (1 <= y <= 9999)%Z) by lia.
  clear H.
  repeat (destruct Hm as [Hm | Hm]); subst m; unfold jd_int;
    repeat break_if; try lia;
    rewrite !int_of_Q_year by lia; eval_month_terms; zlia.
Qed.

Lemma ymd2ord_max d :
  pydate d = true -> (ymd2ord (year d) (month d) (day d) <= MAXORDINAL)%Z.
Proof.
  destruct d as [y m dd].
  unfold pydate, gregorian, ymd2ord, days_before_year, days_before_month,
    days_in_month, is_leap, MINYEAR, MAXYEAR, MAXORDINAL.
  cbn [year month day]. intros H.
  assert (Hm : (m = 1 \/ m = 2 \/ m = 3 \/ m = 4 \/ m = 5 \/ m = 6 \/ m = 7
               \/ m = 8 \/ m = 9 \/ m = 10 \/ m = 11 \/ m = 12)%Z) by lia.
  repeat (destruct Hm as [Hm | Hm]); subst m;
    match goal with
    | |- context [nth ?n ?l 0%Z] =>
        let v := eval vm_compute in (nth n l 0%Z) in
        change (nth n l 0%Z) with v
    end;
    repeat break_if; zlia.
Qed.

(** [julian_day] counts the days [datetime] counts: it is the ordinal of
    the date plus 1721424.5. *)
Lemma julian_day_ordinal d :
  pydate d = true ->
  (julian_day_of d
   == inject_Z (ymd2ord (year d) (month d) (day d)) + 1721424.5)%Q.
Proof.
  intros Hd. unfold julian_day_of. rewrite julian_day_jd_int.
  assert (H : (jd_int (year d) (month d) (day d)
               = ymd2ord (year d) (month d) (day d) + 1722949)%Z).
  { destruct d as [y m dd]. revert Hd.
    unfold pydate, gregorian, ymd2ord, days_before_year, days_before_month,
      days_in_month, is_leap, MINYEAR, MAXYEAR.
    cbn [year month day]. intros H.
    assert (Hm : (m = 1 \/ m = 2 \/ m = 3 \/ m = 4 \/ m = 5 \/ m = 6 \/ m = 7
                  \/ m = 8 \/ m = 9 \/ m = 10 \/ m = 11 \/ m = 12)%Z) by lia.
    repeat (destruct Hm as [Hm | Hm]); subst m; unfold jd_int;
      match goal with
      | |- context [nth ?n ?l 0%Z] =>
          let v := eval vm_compute in (nth n l 0%Z) in
          change (nth n l 0%Z) with v
      end;
      repeat break_if; try lia;
      rewrite !int_of_Q_year by lia; eval_month_terms; zlia. }
  rewrite H, inject_Z_plus. ring.
Qed.

Local Open Scope R_scope.

Lemma julian_day_range d :
  pydate d = true -> 0 <= Q2R (julian_day_of d) + 1524.5 <= 6000000.
Proof.
  intros Hd. unfold julian_day_of. rewrite julian_day_jd_int.
  destruct (jd_int_range d Hd) as [Hl Hu].
  apply IZR_le in Hl, Hu.
  rewrite Q2R_minus.
  replace (Q2R (inject_Z (jd_int (year d) (month d) (day d))))
    with (IZR (jd_int (year d) (month d) (day d)))
    by (unfold Q2R, inject_Z; cbn [Qnum Qden]; field).
  replace (Q2R 1524.5) with 1524.5 by (unfold Q2R; cbn [Qnum Qden]; lra).
  lra.
Qed.

End RangeFacts.

(** ** The hour angle, and the Asr time on the date line *)

Module AsrFacts.
Import Calendar Datetime PyMath Spec Prayer PyMathFacts SolarFacts TrigFacts.
Import CalendarFacts DatetimeFacts NightFacts WinterFacts.
Local Open Scope R_scope.

Lemma degrees_div_15 x : degrees x / 15 = 12 * x / PI.
Proof. unfold degrees. field. apply PI_neq0. Qed.

Lemma hour_angle_hours_antitone c1 c2 :
  c2 <= c1 -> hour_angle_hours c1 <= hour_angle_hours c2.
Proof.
  intros Hc. unfold hour_angle_hours. rewrite !degrees_div_15.
  pose proof PI_RGT_0 as Hpi.
  pose proof (clamp_range c1). pose proof (clamp_range c2).
  pose proof (clamp_mono _ _ Hc).
  assert (acos (py_min 1 (py_max (-1) c1)) <= acos (py_min 1 (py_max (-1) c2)))
    by (apply acos_antitone; lra).
  unfold Rdiv. apply Rmult_le_compat_r; [| lra].
  left. now apply Rinv_0_lt_compat.
Qed.

Lemma hour_angle_hours_of_angle x :
  0 <= x <= PI -> hour_angle_hours (cos x) = 12 * x / PI.
Proof.
  intros Hx. unfold hour_angle_hours.
  rewrite clamp_id by apply COS_bound.
  now rewrite acos_cos, degrees_div_15.
Qed.

Lemma hour_angle_hours_range c : 0 <= hour_angle_hours c <= 12.
Proof.
  unfold hour_angle_hours. rewrite degrees_div_15.
  pose proof (acos_bound (py_min 1 (py_max (-1) c))) as Ha.
  pose proof PI_RGT_0 as Hpi.
  assert (Hi : 0 < / PI) by now apply Rinv_0_lt_compat.
  assert (Hu : PI * / PI = 1) by (apply Rinv_r; lra).
  unfold Rdiv. split; nra.
Qed.

Lemma hour_angle_hours_acute c : 0 <= c -> hour_angle_hours c <= 6.
Proof.
  intros Hc. pose proof PI_RGT_0 as Hpi.
  replace 6 with (12 * (PI / 2) / PI) by (field; lra).
  rewrite <- hour_angle_hours_of_angle by lra.
  apply hour_angle_hours_antitone. now rewrite cos_PI2.
Qed.

Lemma hour_angle_hours_wide c : c <= sqrt 3 / 2 -> 2 <= hour_angle_hours c.
Proof.
  intros Hc. pose proof PI_RGT_0 as Hpi.
  replace 2 with (12 * (PI / 6) / PI) by (field; lra).
  rewrite <- hour_angle_hours_of_angle by lra.
  apply hour_angle_hours_antitone. now rewrite cos_PI6.
Qed.

(** [asr_utc] when nothing raises. *)
Lemma asr_utc_eq lat lon d shadow_len decl :
  solar_declination (Q2R (julian_day_of d)) = Ok decl ->
  shadow_len <> 0 -> cos (radians lat) * cos decl <> 0 ->
  asr_utc lat lon d shadow_len
  = Ok (solar_noon lon (Q2R (julian_day_of d))
        + hour_angle_hours
            ((sin (atan (1 / shadow_len)) - sin (radians lat) * sin decl)
             / (cos (radians lat) * cos decl))).
Proof.
  intros Hdecl Hs Hden. unfold asr_utc, julian_day_of in *. cbv zeta.
  rewrite Hdecl. cbn [bind]. unfold float_div.
  destruct (Req_dec_T shadow_len 0); [contradiction |]. cbn [bind].
  destruct (Req_dec_T _ 0); [contradiction |]. cbn [bind].
  rewrite math_acos_ok by apply clamp_range. reflexivity.
Qed.


Lemma julian_day_2000 : Q2R (julian_day_of new_year_2000) = 2451544.5.
Proof.
  rewrite (Qeq_eqR _ (24515445 # 10)) by reflexivity.
  unfold Q2R. cbn [Qnum Qden]. lra.
Qed.

Lemma q_range_2000 :
  272 <= 280.459 + 0.98564736 * (2451544.5 - 2451545.0) <= 358.
Proof. lra. Qed.

Lemma e_range_2000 :
  0 < 23.439 - 0.00000036 * (2451544.5 - 2451545.0) <= 30.
Proof. lra. Qed.

Lemma eq_time_hours_2000 : -5.34 < eq_time_hours 2451544.5 < 0.665.
Proof.
  pose proof (winter_eq_time_hours 2451544.5 q_range_2000 e_range_2000). lra.
Qed.

Lemma sqrt2_bounds : 1.41 < sqrt 2 < 1.42.
Proof.
  assert (H0 : 0 <= sqrt 2) by apply sqrt_pos.
  assert (H2 : sqrt 2 * sqrt 2 = 2) by (apply sqrt_sqrt; lra).
  split; nra.
Qed.

Lemma sqrt3_bounds : 1.73 < sqrt 3 < 1.74.
Proof.
  assert (H0 : 0 <= sqrt 3) by apply sqrt_pos.
  assert (H2 : sqrt 3 * sqrt 3 = 3) by (apply sqrt_sqrt; lra).
  split; nra.
Qed.

(** At the equator on the date line, on 2000-01-01, the Asr time in UTC
    hours is past 24. *)
Lemma asr_utc_date_line :
  exists u, asr_utc 0 (-180) new_year_2000 1 = Ok u /\ 25 <= u.
Proof.
  destruct (winter_declination 2451544.5 q_range_2000 e_range_2000)
    as (decl & Hdecl & Hd & Hsin & Hcos).
  pose proof sqrt2_bounds as S2. pose proof sqrt3_bounds as S3.
  assert (Hr0 : radians 0 = 0) by (unfold radians; ring).
  eexists. split.
  - apply asr_utc_eq with (decl := decl).
    + now rewrite julian_day_2000.
    + lra.
    + rewrite Hr0, cos_0. lra.
  - rewrite julian_day_2000, Hr0, sin_0, cos_0.
    replace (1 / 1) with 1 by field. rewrite atan_1, sin_PI4.
    pose proof eq_time_hours_2000 as He.
    unfold solar_noon, equation_of_time. cbv zeta.
    assert (Hc : (1 / sqrt 2 - 0 * sin decl) / (1 * cos decl) <= sqrt 3 / 2).
    { replace ((1 / sqrt 2 - 0 * sin decl) / (1 * cos decl))
        with (/ (sqrt 2 * cos decl)) by (field; lra).
      replace (sqrt 3 / 2) with (/ (2 / sqrt 3)) by (field; lra).
      apply Rinv_le_contravar.
      - apply Rdiv_lt_0_compat; lra.
      - assert (H3 : sqrt 3 * sqrt 3 = 3) by (apply sqrt_sqrt; lra).
        assert (Hcs : 3 / 2 <= cos decl * sqrt 3) by nra.
        apply Rmult_le_reg_r with (r := sqrt 3); [lra |].
        unfold Rdiv. rewrite Rmult_assoc, Rinv_l by lra. nra. }
    pose proof (hour_angle_hours_wide _ Hc). lra.
Qed.


Lemma int_of_R_nonneg u : 0 <= u -> int_of_R u = Zfloor u.
Proof.
  intros Hu. unfold int_of_R. destruct (Rle_dec 0 u); [reflexivity | contradiction].
Qed.

Lemma pydate_fields d :
  pydate d = true ->
  negb ((MINYEAR <=? year d) && (year d <=? MAXYEAR))%Z = false /\
  negb ((1 <=? month d) && (month d <=? 12))%Z = false /\
  negb ((1 <=? day d) && (day d <=? days_in_month (year d) (month d)))%Z = false.
Proof.
  unfold pydate, gregorian. intros H.
  repeat split; apply negb_false_iff; lia.
Qed.

(** From 24 hours on, the [datetime] constructor rejects the hour. *)
Lemma asr_clock_hour_overflow tzdata u d tz :
  pydate d = true -> 24 <= u ->
  asr_clock tzdata u d tz = Raise (ValueError "hour must be in 0..23").
Proof.
  intros Hd Hu. unfold asr_clock. cbv zeta.
  rewrite (int_of_R_nonneg u) by lra.
  assert (Hh : (24 <= Zfloor u)%Z) by (apply Zfloor_lub; lra).
  unfold datetime_new.
  destruct (pydate_fields d Hd) as (-> & -> & ->).
  replace (negb ((0 <=? Zfloor u) && (Zfloor u <=? 23))%Z) with true by lia.
  reflexivity.
Qed.

Lemma asr_time_date_line tzdata tz :
  asr_time tzdata 0 (-180) new_year_2000 1 tz
  = Raise (ValueError "hour must be in 0..23").
Proof.
  rewrite asr_time_stages.
  destruct asr_utc_date_line as (u & -> & Hu). cbn [bind].
  apply asr_clock_hour_overflow; [reflexivity | lra].
Qed.

(** C9.  There are a latitude in [[-66, 66]], a longitude in [[-180, 180]],
    a date and a shadow length for which [asr_utc] is at least 24, so that
    the truncated hour is at least 24 and, under every zone name, [asr_time]
    raises the [ValueError] of the [datetime] constructor. *)
Theorem asr_time_hour_out_of_range :
  exists (lat lon : R) (d : date) (shadow_len : R),
    -66 <= lat <= 66 /\ -180 <= lon <= 180 /\ pydate d = true /\
    0 < shadow_len /\
    (exists u, asr_utc lat lon d shadow_len = Ok u /\ (24 <= int_of_R u)%Z) /\
    forall tzdata tz,
      asr_time tzdata lat lon d shadow_len tz
      = Raise (ValueError "hour must be in 0..23").
Proof.
  exists 0, (-180), new_year_2000, 1.
  repeat split; try lra.
  - destruct asr_utc_date_line as (u & Hu & Hge).
    exists u. split; [assumption |].
    rewrite int_of_R_nonneg by lra. apply Zfloor_lub. lra.
  - apply asr_time_date_line.
Qed.

(** C4, as stated, fails: with an unknown zone name [asr_time] can raise
    another exception before the zone is looked up. *)
Lemma asr_time_unknown_zone_counterexample :
  ~ (forall tzdata tz lat lon d shadow_len,
        tzdata tz = None ->
        asr_time tzdata lat lon d shadow_len tz = Raise (UnknownTimeZoneError tz)).
Proof.
  intros H.
  specialize (H (fun _ => None) "Atlantis/Poseidonis"%string 0 (-180)
                new_year_2000 1 eq_refl).
  rewrite asr_time_date_line in H. discriminate.
Qed.

(** C4, amended.  With an unknown zone name, [last_third_time] raises
    [UnknownTimeZoneError]; [asr_time] never returns a time, and raises
    [UnknownTimeZoneError] whenever the statements before the zone lookup,
    up to the [datetime] constructor, do not raise. *)
Theorem unknown_zone_raises tzdata tz :
  tzdata tz = None ->
  (forall sunset_str fajr_str d,
      last_third_time tzdata sunset_str fajr_str tz d
      = Raise (UnknownTimeZoneError tz))
  /\ (forall lat lon d shadow_len,
         (forall s, asr_time tzdata lat lon d shadow_len tz <> Ok s)
         /\ (forall u dt,
                asr_utc lat lon d shadow_len = Ok u ->
                datetime_new (year d) (month d) (day d) (int_of_R u)
                  (int_of_R ((u - IZR (int_of_R u)) * 60)) = Ok dt ->
                asr_time tzdata lat lon d shadow_len tz
                = Raise (UnknownTimeZoneError tz))).
Proof.
  intros Htz. split.
  - intros. now apply last_third_time_unknown_zone.
  - intros lat lon d shadow_len. rewrite asr_time_stages. split.
    + intros s. destruct (asr_utc lat lon d shadow_len); [| discriminate].
      cbn [bind]. unfold asr_clock, pytz_timezone. cbv zeta. rewrite Htz.
      destruct (datetime_new _ _ _ _ _); discriminate.
    + intros u dt -> Hdt. cbn [bind].
      unfold asr_clock, pytz_timezone. cbv zeta. now rewrite Hdt, Htz.
Qed.

Lemma unknown_zone_raises_witness :
  example_tzdata "Atlantis/Poseidonis" = None /\
  last_third_time example_tzdata "18:00" "04:00" "Atlantis/Poseidonis"
    (mkdate 2024 11 3)
  = Raise (UnknownTimeZoneError "Atlantis/Poseidonis").
Proof.
  split; [reflexivity |].
  apply (unknown_zone_raises example_tzdata "Atlantis/Poseidonis"); reflexivity.
Defined.

End AsrFacts.

(** ** The two shadow lengths, and the clamp *)

Module ShadowFacts.
Import Calendar Datetime PyMath Spec Prayer PyMathFacts SolarFacts TrigFacts.
Import CalendarFacts DatetimeFacts NightFacts WinterFacts AsrFacts RangeFacts.
Local Open Scope R_scope.

(** Whenever the obliquity is an acute angle the declination exists and its
    cosine is positive. *)
Lemma declination_cos_pos JD :
  0 < 23.439 - 0.00000036 * (JD - 2451545.0) < 90 ->
  exists decl, solar_declination JD = Ok decl /\ 0 < cos decl.
Proof.
  intros He. unfold_solar_declination.
  set (e := radians (23.439 - 0.00000036 * (JD - 2451545.0))).
  set (L := radians (float_mod _ 360)).
  destruct (first_quadrant _ He) as (Hr & Hs & _). fold e in Hr, Hs.
  assert (Hs1 : sin e < 1).
  { rewrite <- sin_PI2. apply sin_increasing_1; lra. }
  pose proof (SIN_bound L) as BL.
  assert (Hb : -1 < sin e * sin L < 1) by nra.
  rewrite math_asin_ok by lra.
  eexists. split; [reflexivity |].
  pose proof (asin_bound_lt _ Hb). apply cos_gt_0; lra.
Qed.

Lemma pydate_obliquity d :
  pydate d = true ->
  0 < 23.439 - 0.00000036 * (Q2R (julian_day_of d) - 2451545.0) < 90.
Proof. intros Hd. pose proof (julian_day_range d Hd). lra. Qed.

Lemma latitude_cos_pos lat : -90 < lat < 90 -> 0 < cos (radians lat).
Proof.
  intros H. pose proof PI_RGT_0. apply cos_gt_0; unfold radians; nra.
Qed.

(** The altitude of the Hanafi convention is the lower one. *)
Lemma altitude_order : 0 < sin (atan (1 / 2)) <= sin (atan (1 / 1)).
Proof.
  pose proof (atan_bound (1 / 2)) as B2. pose proof (atan_bound (1 / 1)) as B1.
  assert (H0 : 0 < atan (1 / 2)).
  { rewrite <- atan_0. apply atan_increasing. lra. }
  assert (H12 : atan (1 / 2) < atan (1 / 1)) by (apply atan_increasing; lra).
  split.
  - apply sin_gt_0; lra.
  - apply sin_incr_1; lra.
Qed.

(** For every latitude between the poles and every date, [asr_utc] returns
    under both conventions, and the Hanafi value is not the smaller one. *)
Lemma asr_utc_shadow_order lat lon d :
  -90 < lat < 90 -> pydate d = true ->
  exists decl,
    solar_declination (Q2R (julian_day_of d)) = Ok decl /\
    0 < cos (radians lat) * cos decl /\
    let cosH shadow_len :=
      (sin (atan (1 / shadow_len)) - sin (radians lat) * sin decl)
      / (cos (radians lat) * cos decl) in
    let noon := solar_noon lon (Q2R (julian_day_of d)) in
    asr_utc lat lon d 1 = Ok (noon + hour_angle_hours (cosH 1)) /\
    asr_utc lat lon d 2 = Ok (noon + hour_angle_hours (cosH 2)) /\
    cosH 2 <= cosH 1 /\
    hour_angle_hours (cosH 1) <= hour_angle_hours (cosH 2).
Proof.
  intros Hlat Hd.
  destruct (declination_cos_pos _ (pydate_obliquity d Hd)) as (decl & Hdecl & Hc).
  pose proof (latitude_cos_pos lat Hlat) as Hl.
  assert (Hden : 0 < cos (radians lat) * cos decl) by now apply Rmult_lt_0_compat.
  exists decl. split; [assumption |]. split; [assumption |].
  intros cosH noon.
  assert (Hord : cosH 2 <= cosH 1).
  { unfold cosH, Rdiv. apply Rmult_le_compat_r.
    - left. now apply Rinv_0_lt_compat.
    - pose proof altitude_order. fold (1 / 2) (1 / 1). lra. }
  repeat split.
  - apply asr_utc_eq; [assumption | lra | lra].
  - apply asr_utc_eq; [assumption | lra | lra].
  - assumption.
  - now apply hour_angle_hours_antitone.
Qed.


(** The hour and minute fields cut out of [asr_utc]. *)
Lemma clock_fields u :
  0 <= u ->
  let hr := Zfloor u in
  let mn := Zfloor ((u - IZR hr) * 60) in
  int_of_R u = hr /\ int_of_R ((u - IZR (int_of_R u)) * 60) = mn /\
  (0 <= hr)%Z /\ (0 <= mn <= 59)%Z /\
  IZR (hr * 3600 + mn * 60) <= u * 3600.
Proof.
  intros Hu hr mn.
  pose proof (Zfloor_bound u) as Bu. fold hr in Bu.
  assert (Hf : 0 <= (u - IZR hr) * 60 < 60) by lra.
  pose proof (Zfloor_bound ((u - IZR hr) * 60)) as Bm. fold mn in Bm.
  rewrite (int_of_R_nonneg u) by assumption. fold hr.
  rewrite int_of_R_nonneg by lra. fold mn.
  assert (H0 : (0 <= hr)%Z) by (apply Zfloor_lub; lra).
  assert (H1 : (0 <= mn)%Z) by (apply Zfloor_lub; lra).
  assert (H2 : (mn < 60)%Z) by (apply lt_IZR; lra).
  repeat split; try lia.
  rewrite plus_IZR, !mult_IZR. lra.
Qed.

Lemma clock_fields_monotone u1 u2 :
  0 <= u1 <= u2 ->
  (Zfloor u1 * 3600 + Zfloor ((u1 - IZR (Zfloor u1)) * 60) * 60
   <= Zfloor u2 * 3600 + Zfloor ((u2 - IZR (Zfloor u2)) * 60) * 60)%Z.
Proof.
  intros Hu.
  destruct (clock_fields u1) as (_ & _ & _ & Hm1 & _); [lra |].
  destruct (clock_fields u2) as (_ & _ & _ & Hm2 & _); [lra |].
  cbv zeta in Hm1, Hm2.
  assert (Hh : (Zfloor u1 <= Zfloor u2)%Z) by (apply Zfloor_le; lra).
  destruct (Z.eq_dec (Zfloor u1) (Zfloor u2)) as [Heq | Hne]; [| lia].
  assert ((Zfloor ((u1 - IZR (Zfloor u1)) * 60)
           <= Zfloor ((u2 - IZR (Zfloor u2)) * 60))%Z)
    by (apply Zfloor_le; rewrite Heq; lra).
  lia.
Qed.

(** [asr_clock] in a zone whose offset is a constant number of seconds
    east of UTC, when the local time falls on the same calendar day. *)
Lemma asr_clock_fixed_offset tzdata u d tz z off :
  pydate d = true -> tzdata tz = Some z ->
  (forall t, utcoffset z t = off) ->
  0 <= u -> (0 <= off)%Z -> u * 3600 + IZR off < 86400 ->
  asr_clock tzdata u d tz
  = Ok (clock_HM (Zfloor u * 3600 + Zfloor ((u - IZR (Zfloor u)) * 60) * 60
                  + off)).
Proof.
  intros Hd Htz Hoff Hu Ho Hday.
  destruct (clock_fields u Hu) as (Hhr & Hmn & H0 & Hm & Hle).
  cbv zeta in *.
  set (hr := Zfloor u) in *. set (mn := Zfloor ((u - IZR hr) * 60)) in *.
  assert (Hs : (hr * 3600 + mn * 60 + off < 86400)%Z).
  { apply lt_IZR. rewrite plus_IZR. lra. }
  rewrite Hhr in Hmn. unfold asr_clock. cbv zeta. rewrite Hhr, Hmn.
  rewrite datetime_new_ok by (try assumption; lia). cbn [bind].
  unfold pytz_timezone. rewrite Htz. cbn [bind].
  unfold astimezone. rewrite Hoff.
  pose proof (ymd2ord_pos d Hd). pose proof (ymd2ord_max d Hd).
  rewrite datetime_add_seconds; try lia.
  - cbn [bind]. now rewrite strftime_HM_seconds by lia.
  - rewrite Z.div_small by lia. lia.
Qed.


(** Mecca on 2000-01-01: both Asr times lie between 8 and 21 hours UTC. *)
Lemma asr_utc_mecca :
  exists u1 u2,
    asr_utc 21.4225 39.8262 new_year_2000 1 = Ok u1 /\
    asr_utc 21.4225 39.8262 new_year_2000 2 = Ok u2 /\
    8 < u1 /\ u1 <= u2 /\ u2 < 21.
Proof.
  destruct (asr_utc_shadow_order 21.4225 39.8262 new_year_2000)
    as (decl & Hdecl & Hden & H); [lra | reflexivity |].
  cbv zeta in H. destruct H as (H1 & H2 & _ & Hord).
  destruct (winter_declination 2451544.5 q_range_2000 e_range_2000)
    as (decl' & Hdecl' & _ & Hsin & _).
  rewrite julian_day_2000 in Hdecl, H1, H2. rewrite Hdecl' in Hdecl.
  injection Hdecl as ->.
  destruct (first_quadrant 21.4225) as (_ & Hsl & _); [lra |].
  pose proof altitude_order as Ha.
  set (c1 := (sin (atan (1 / 1)) - _) / _) in *.
  set (c2 := (sin (atan (1 / 2)) - _) / _) in *.
  assert (Hc2 : 0 <= c2).
  { unfold c2, Rdiv. apply Rmult_le_pos; [nra |].
    left. now apply Rinv_0_lt_compat. }
  pose proof (hour_angle_hours_range c1) as R1.
  pose proof (hour_angle_hours_acute c2 Hc2) as R2.
  pose proof eq_time_hours_2000 as He.
  do 2 eexists. split; [exact H1 |]. split; [exact H2 |].
  unfold solar_noon, equation_of_time. cbv zeta. lra.
Qed.

(** Between the poles, on every date and for every shadow length other
    than zero, [asr_utc] returns. *)
Lemma asr_utc_returns lat lon d shadow_len :
  -90 < lat < 90 -> pydate d = true -> shadow_len <> 0 ->
  exists u, asr_utc lat lon d shadow_len = Ok u.
Proof.
  intros Hlat Hd Hs.
  destruct (declination_cos_pos _ (pydate_obliquity d Hd)) as (decl & Hdecl & Hc).
  pose proof (latitude_cos_pos lat Hlat) as Hl.
  eexists. apply asr_utc_eq with (decl := decl); [assumption | assumption |].
  apply Rgt_not_eq. now apply Rmult_lt_0_compat.
Qed.

(** C1.  The value handed to [math.acos] in [asr_time] is the clamp of
    [cosH], which lies in [[-1, 1]] whatever [cosH] is, as a real number
    and as a binary64 value (NaN and the infinities included), so
    [math.acos] returns; for every latitude, longitude, date, shadow length
    and zone, [asr_time] does not raise the domain error of [math.acos];
    and for a latitude in [[-66, 66]], a date and a positive shadow length,
    nothing is raised up to and including that step. *)
Theorem asr_time_acos_in_domain tzdata lat lon d shadow_len tz :
  (forall cosH,
      let clamped := py_min 1 (py_max (-1) cosH) in
      -1 <= clamped <= 1 /\ math_acos clamped = Ok (acos clamped))
  /\ (forall cosH : float, Binary64.acos_accepts (Binary64.clamp cosH) = true)
  /\ asr_time tzdata lat lon d shadow_len tz <> Raise (MathDomainError "acos")
  /\ (-66 <= lat <= 66 -> pydate d = true -> 0 < shadow_len ->
      exists u, asr_utc lat lon d shadow_len = Ok u).
Proof.
  split; [| split; [| split]].
  - intros cosH clamped. split; [apply clamp_range |].
    apply math_acos_ok, clamp_range.
  - apply Binary64Facts.clamp64_accepted.
  - rewrite asr_time_stages. unfold asr_utc. cbv zeta.
    destruct (solar_declination_ok
                (Q2R (julian_day (year d) (month d) (day d)))) as [decl ->].
    cbn [bind]. unfold float_div.
    destruct (Req_dec_T shadow_len 0); [discriminate |]. cbn [bind].
    destruct (Req_dec_T _ 0); [discriminate |]. cbn [bind].
    rewrite math_acos_ok by apply clamp_range. cbn [bind].
    intros H. apply asr_clock_raises in H.
    destruct H as [[msg H] | [H | H]]; discriminate.
  - intros Hlat Hd Hs. apply asr_utc_returns; [lra | assumption | lra].
Qed.

Lemma asr_time_acos_in_domain_witness :
  exists u, asr_utc 66 0 new_year_2000 2 = Ok u.
Proof.
  apply (proj2 (proj2 (proj2 (asr_time_acos_in_domain example_tzdata 66 0
                                new_year_2000 2 "UTC"))));
    [lra | reflexivity | lra].
Defined.

End ShadowFacts.


(** ** Numerical bounds at the equator on 2000-01-01 *)

Module EquatorFacts.
Import Calendar Datetime PyMath Spec Prayer PyMathFacts SolarFacts TrigFacts.
Import CalendarFacts DatetimeFacts NightFacts WinterFacts RangeFacts AsrFacts.
Import ShadowFacts.
Local Open Scope R_scope.













End EquatorFacts.


Module SolarRangeFacts.
Import Calendar Datetime PyMath Spec Prayer PyMathFacts SolarFacts TrigFacts.
Import CalendarFacts DatetimeFacts NightFacts WinterFacts RangeFacts AsrFacts ShadowFacts.
Local Open Scope R_scope.

Lemma Q2R_inject_Z z : Q2R (inject_Z z) = IZR z.
Proof. unfold Q2R, inject_Z. cbn [Qnum Qden]. field. Qed.

Lemma julian_day_tight_range d :
  pydate d = true -> 1721425.5 <= Q2R (julian_day_of d) <= 5373484.5.
Proof.
  intros Hd.
  rewrite (Qeq_eqR _ _ (julian_day_ordinal d Hd)).
  pose proof (ymd2ord_pos d Hd) as Hl. pose proof (ymd2ord_max d Hd) as Hu.
  unfold MAXORDINAL in Hu. apply IZR_le in Hl, Hu.
  rewrite Q2R_plus, Q2R_inject_Z.
  replace (Q2R 1721424.5) with 1721424.5 by (unfold Q2R; cbn [Qnum Qden]; lra).
  lra.
Qed.

(** X2.  On every date a [datetime] can hold, [solar_declination] returns
    an angle whose absolute value is at most the obliquity of that day,
    which is itself below 24 degrees. *)
Theorem declination_within_obliquity (d : date) :
  pydate d = true ->
  let JD := Q2R (julian_day_of d) in
  let e := radians (23.439 - 0.00000036 * (JD - 2451545.0)) in
  exists decl,
    solar_declination JD = Ok decl /\ - e <= decl <= e /\ e < radians 24.
Proof.
  intros Hd JD e.
  pose proof (julian_day_tight_range d Hd) as HJ. fold JD in HJ.
  pose proof PI_RGT_0 as Hpi.
  assert (Hdeg : 0 < 23.439 - 0.00000036 * (JD - 2451545.0) < 24) by lra.
  assert (He : 0 < e < PI / 2) by (unfold e, radians; nra).
  unfold_solar_declination. fold e.
  set (L := radians (float_mod _ 360)).
  assert (Hs : 0 < sin e) by (apply sin_gt_0; lra).
  pose proof (SIN_bound e) as Be. pose proof (SIN_bound L) as BL.
  set (s := sin e * sin L).
  assert (Hsb : - sin e <= s <= sin e) by (unfold s; nra).
  rewrite math_asin_ok by lra.
  exists (asin s). split; [reflexivity |].
  pose proof (asin_bound s) as Ba.
  assert (Hsa : sin (asin s) = s) by (apply sin_asin; lra).
  split; [split |].
  - destruct (Rle_dec (- e) (asin s)) as [H | H]; [assumption | exfalso].
    apply Rnot_le_lt in H.
    assert (sin (asin s) < sin (- e)) by (apply sin_increasing_1; lra).
    rewrite sin_neg in *. lra.
  - destruct (Rle_dec (asin s) e) as [H | H]; [assumption | exfalso].
    apply Rnot_le_lt in H.
    assert (sin e < sin (asin s)) by (apply sin_increasing_1; lra).
    lra.
  - unfold e, radians. nra.
Qed.

Lemma declination_within_obliquity_witness :
  exists decl,
    solar_declination (Q2R (julian_day_of new_year_2000)) = Ok decl /\
    - radians (23.439 - 0.00000036
                 * (Q2R (julian_day_of new_year_2000) - 2451545.0)) <= decl
    <= radians (23.439 - 0.00000036
                  * (Q2R (julian_day_of new_year_2000) - 2451545.0)) /\
    radians (23.439 - 0.00000036
               * (Q2R (julian_day_of new_year_2000) - 2451545.0)) < radians 24.
Proof.
  apply (declination_within_obliquity new_year_2000). reflexivity.
Defined.

(** X3.  Whenever [asr_utc] returns, its value is not before solar noon
    and at most 12 hours after it. *)
Theorem asr_utc_after_noon lat lon d shadow_len u :
  asr_utc lat lon d shadow_len = Ok u ->
  let noon := solar_noon lon (Q2R (julian_day_of d)) in
  noon <= u <= noon + 12.
Proof.
  unfold asr_utc, julian_day_of. cbv zeta.
  destruct (solar_declination _) as [decl |]; [cbn [bind] | discriminate].
  destruct (float_div 1 shadow_len) as [inv |]; [cbn [bind] | discriminate].
  destruct (float_div _ _) as [c |]; [cbn [bind] | discriminate].
  rewrite math_acos_ok by apply clamp_range. cbn [bind].
  intros H. injection H as <-.
  pose proof (hour_angle_hours_range c) as Hh. unfold hour_angle_hours in Hh.
  lra.
Qed.

Lemma asr_utc_after_noon_witness :
  exists u,
    asr_utc 0 (-180) new_year_2000 1 = Ok u /\
    solar_noon (-180) (Q2R (julian_day_of new_year_2000)) <= u
    <= solar_noon (-180) (Q2R (julian_day_of new_year_2000)) + 12.
Proof.
  destruct asr_utc_date_line as (u & Hu & _).
  exists u. split; [exact Hu |].
  exact (asr_utc_after_noon 0 (-180) new_year_2000 1 u Hu).
Defined.

(** X4.  Moving east by [dlon] degrees of longitude, everything else
    equal, moves [asr_utc] earlier by [dlon / 15] hours; the exception, if
    one is raised, is the same. *)
Theorem asr_utc_longitude_shift lat lon dlon d shadow_len :
  asr_utc lat (lon + dlon) d shadow_len
  = (u <- asr_utc lat lon d shadow_len ;; Ok (u - dlon / 15)).
Proof.
  unfold asr_utc. cbv zeta.
  destruct (solar_declination _) as [decl |]; [cbn [bind] | reflexivity].
  destruct (float_div 1 shadow_len) as [inv |]; [cbn [bind] | reflexivity].
  destruct (float_div _ _) as [c |]; [cbn [bind] | reflexivity].
  destruct (math_acos _) as [H |]; [cbn [bind] | reflexivity].
  f_equal. unfold solar_noon. cbv zeta. lra.
Qed.

(** X5.  A shadow length of zero makes [asr_time] raise
    [ZeroDivisionError], whatever the other arguments. *)
Theorem asr_time_zero_shadow tzdata lat lon d tz :
  asr_time tzdata lat lon d 0 tz = Raise ZeroDivisionError.
Proof.
  unfold asr_time. cbv zeta.
  destruct (solar_declination_ok
              (Q2R (julian_day (year d) (month d) (day d)))) as [decl ->].
  cbn [bind]. unfold float_div at 1.
  destruct (Req_dec_T 0 0) as [_ | H]; [reflexivity | now contradiction H].
Qed.

End SolarRangeFacts.


Module AsrEdgeFacts.
Import Calendar Datetime PyMath Spec Prayer PyMathFacts SolarFacts TrigFacts.
Import CalendarFacts DatetimeFacts NightFacts WinterFacts RangeFacts AsrFacts ShadowFacts.
Local Open Scope R_scope.

(** X1.  On every date a [datetime] can hold, [julian_day] is the ordinal
    of the date (0001-01-01 is day 1) plus 1721424.5, so the difference of
    the Julian Days of two dates is the number of days between them. *)
Theorem julian_day_days_between (d1 d2 : date) :
  pydate d1 = true -> pydate d2 = true ->
  (julian_day_of d1
   == inject_Z (ymd2ord (year d1) (month d1) (day d1)) + 1721424.5)%Q
  /\ (julian_day_of d2 - julian_day_of d1
      == inject_Z (ymd2ord (year d2) (month d2) (day d2)
                   - ymd2ord (year d1) (month d1) (day d1)))%Q.
Proof.
  intros H1 H2. split; [now apply julian_day_ordinal |].
  rewrite (julian_day_ordinal d1 H1), (julian_day_ordinal d2 H2).
  unfold Z.sub. rewrite inject_Z_plus, inject_Z_opp. ring.
Qed.

Lemma julian_day_days_between_witness :
  (julian_day_of (mkdate 2024 3 1) - julian_day_of (mkdate 2023 3 1)
   == inject_Z 366)%Q.
Proof.
  apply (julian_day_days_between (mkdate 2023 3 1) (mkdate 2024 3 1));
    reflexivity.
Defined.

(** X6.  Between the poles and on every date, [asr_utc] returns for every
    positive shadow length, and a longer shadow never gives an earlier
    value. *)
Theorem asr_utc_shadow_monotone lat lon d s1 s2 :
  -90 < lat < 90 -> pydate d = true -> 0 < s1 <= s2 ->
  exists u1 u2,
    asr_utc lat lon d s1 = Ok u1 /\ asr_utc lat lon d s2 = Ok u2 /\ u1 <= u2.
Proof.
  intros Hlat Hd Hs.
  destruct (declination_cos_pos _ (pydate_obliquity d Hd)) as (decl & Hdecl & Hc).
  pose proof (latitude_cos_pos lat Hlat) as Hl.
  assert (Hden : 0 < cos (radians lat) * cos decl) by now apply Rmult_lt_0_compat.
  rewrite (asr_utc_eq lat lon d s1 decl), (asr_utc_eq lat lon d s2 decl);
    try assumption; try lra.
  do 2 eexists. split; [reflexivity |]. split; [reflexivity |].
  apply Rplus_le_compat_l, hour_angle_hours_antitone.
  unfold Rdiv at 1 3. apply Rmult_le_compat_r.
  - left. now apply Rinv_0_lt_compat.
  - assert (Hinv : 1 / s2 <= 1 / s1).
    { unfold Rdiv. rewrite !Rmult_1_l. apply Rinv_le_contravar; lra. }
    assert (Hat : atan (1 / s2) <= atan (1 / s1)).
    { destruct Hinv as [Hlt | Heq]; [left; now apply atan_increasing |].
      rewrite Heq. apply Rle_refl. }
    pose proof (atan_bound (1 / s1)). pose proof (atan_bound (1 / s2)).
    assert (sin (atan (1 / s2)) <= sin (atan (1 / s1)))
      by (apply sin_incr_1; lra).
    lra.
Qed.

Lemma asr_utc_shadow_monotone_witness :
  exists u1 u2,
    asr_utc 21.4225 39.8262 new_year_2000 1 = Ok u1 /\
    asr_utc 21.4225 39.8262 new_year_2000 3 = Ok u2 /\ u1 <= u2.
Proof.
  apply (asr_utc_shadow_monotone 21.4225 39.8262 new_year_2000 1 3);
    [lra | reflexivity | lra].
Defined.

(** X7.  When the sun at noon does not rise above the Asr altitude, that
    is when [cos (lat - decl) <= sin (atan (1/shadow_len))], the clamp
    takes over and [asr_utc] is solar noon itself. *)
Theorem asr_utc_low_sun lat lon d shadow_len decl :
  solar_declination (Q2R (julian_day_of d)) = Ok decl ->
  shadow_len <> 0 -> 0 < cos (radians lat) * cos decl ->
  cos (radians lat - decl) <= sin (atan (1 / shadow_len)) ->
  asr_utc lat lon d shadow_len = Ok (solar_noon lon (Q2R (julian_day_of d))).
Proof.
  intros Hdecl Hs Hden Hlow.
  rewrite (asr_utc_eq lat lon d shadow_len decl) by (try assumption; lra).
  f_equal. rewrite cos_minus in Hlow.
  set (c := (sin (atan (1 / shadow_len)) - sin (radians lat) * sin decl)
            / (cos (radians lat) * cos decl)).
  assert (Hc : 1 <= c).
  { unfold c. apply Rmult_le_reg_r with (r := cos (radians lat) * cos decl);
      [assumption |].
    unfold Rdiv. rewrite Rmult_assoc, Rinv_l by lra. lra. }
  assert (Hh : hour_angle_hours c <= hour_angle_hours 1)
    by now apply hour_angle_hours_antitone.
  pose proof (hour_angle_hours_range c) as Hr.
  assert (H1 : hour_angle_hours 1 = 0).
  { rewrite <- cos_0. rewrite hour_angle_hours_of_angle.
    - unfold Rdiv. ring.
    - pose proof PI_RGT_0. lra. }
  lra.
Qed.

Lemma asr_utc_low_sun_witness :
  asr_utc 66 0 new_year_2000 1
  = Ok (solar_noon 0 (Q2R (julian_day_of new_year_2000))).
Proof.
  destruct (winter_declination 2451544.5 q_range_2000 e_range_2000)
    as (decl & Hdecl & Hd & Hsin & Hcos).
  rewrite <- julian_day_2000 in Hdecl.
  destruct (first_quadrant 66) as (Hr & _ & Hc66); [lra |].
  pose proof PI_RGT_0 as Hpi. pose proof sqrt2_bounds as S2.
  pose proof sqrt3_bounds as S3.
  apply (asr_utc_low_sun 66 0 new_year_2000 1 decl Hdecl).
  - lra.
  - apply Rmult_lt_0_compat; lra.
  - replace (1 / 1) with 1 by field. rewrite atan_1, sin_PI4.
    assert (H3 : PI / 3 <= radians 66 - decl) by (unfold radians; lra).
    assert (Hle : cos (radians 66 - decl) <= cos (PI / 3))
      by (apply cos_decr_1; lra).
    rewrite cos_PI3 in Hle.
    assert (1 / 2 <= 1 / sqrt 2).
    { unfold Rdiv. rewrite !Rmult_1_l. apply Rinv_le_contravar; lra. }
    lra.
Defined.

End AsrEdgeFacts.


Module AsrClockFacts.
Import Calendar Datetime PyMath Spec Prayer PyMathFacts SolarFacts TrigFacts.
Import CalendarFacts DatetimeFacts NightFacts WinterFacts RangeFacts AsrFacts ShadowFacts.
Local Open Scope R_scope.

Lemma asr_utc_raises lat lon d shadow_len e :
  asr_utc lat lon d shadow_len = Raise e -> e = ZeroDivisionError.
Proof.
  unfold asr_utc. cbv zeta.
  destruct (solar_declination_ok
              (Q2R (julian_day (year d) (month d) (day d)))) as [decl ->].
  cbn [bind]. unfold float_div.
  destruct (Req_dec_T shadow_len 0); [intros H; now injection H |].
  cbn [bind].
  destruct (Req_dec_T _ 0); [intros H; now injection H |].
  cbn [bind]. rewrite math_acos_ok by apply clamp_range. discriminate.
Qed.





End AsrClockFacts.


Module ClockStringFacts.
Import Calendar Datetime PyMath Spec Prayer PyMathFacts SolarFacts TrigFacts.
Import CalendarFacts DatetimeFacts NightFacts WinterFacts RangeFacts AsrFacts ShadowFacts.
Import AsrClockFacts.

Local Open Scope Z_scope.

Lemma strftime_HM_any o s :
  strftime_HM (o * usec_per_day + s * 1000000) = clock_HM s.
Proof.
  unfold strftime_HM, clock_HM, hour, minute.
  unfold usec_per_day, usec_per_hour, usec_per_minute.
  assert (Hh : (o * 86400000000 + s * 1000000) mod 86400000000 / 3600000000
               = (s / 3600) mod 24) by zlia.
  assert (Hm : ((o * 86400000000 + s * 1000000) mod 86400000000)
                 mod 3600000000 / 60000000 = (s / 60) mod 60) by zlia.
  now rewrite Hh, Hm.
Qed.

Lemma datetime_add_any o s1 s2 :
  datetime_add (o * usec_per_day + s1 * 1000000) (s2 * 1000000)
  = if (0 <? o + (s1 + s2) / 86400) && (o + (s1 + s2) / 86400 <=? MAXORDINAL)
    then Ok (o * usec_per_day + (s1 + s2) * 1000000)
    else Raise OverflowError.
Proof.
  unfold datetime_add.
  replace (o * usec_per_day + s1 * 1000000 + s2 * 1000000)
    with (o * usec_per_day + (s1 + s2) * 1000000) by ring.
  replace (toordinal (o * usec_per_day + (s1 + s2) * 1000000))
    with (o + (s1 + s2) / 86400) by (unfold toordinal, usec_per_day; zlia).
  reflexivity.
Qed.

Lemma hour_minute_range t : 0 <= hour t <= 23 /\ 0 <= minute t <= 59.
Proof.
  unfold hour, minute, usec_per_day, usec_per_hour, usec_per_minute.
  split; zlia.
Qed.

Lemma match_H_two_digits h r :
  0 <= h <= 23 ->
  exists l, match_H (two_digits h ++ r) = (h, r) :: l.
Proof.
  intros Hh. rewrite <- (Z2Nat.id h) by lia.
  assert (Hn : (Z.to_nat h < 24)%nat) by lia.
  generalize dependent (Z.to_nat h). intros n Hn.
  do 24 (destruct n as [| n]; [eexists; reflexivity |]). lia.
Qed.

Lemma match_M_two_digits m :
  0 <= m <= 59 ->
  exists l, match_M (two_digits m) = (m, EmptyString) :: l.
Proof.
  intros Hm. rewrite <- (Z2Nat.id m) by lia.
  assert (Hn : (Z.to_nat m < 60)%nat) by lia.
  generalize dependent (Z.to_nat m). intros n Hn.
  do 60 (destruct n as [| n]; [eexists; reflexivity |]). lia.
Qed.

(** [strptime] reads back what [strftime] wrote. *)
Lemma strptime_strftime t :
  strptime_HM (strftime_HM t) = Ok (hour t, minute t).
Proof.
  destruct (hour_minute_range t) as [Hh Hm].
  unfold strftime_HM.
  destruct (match_H_two_digits (hour t) (":" ++ two_digits (minute t)) Hh)
    as [l1 E1].
  destruct (match_M_two_digits (minute t) Hm) as [l2 E2].
  unfold strptime_HM. rewrite E1. cbv zeta. cbn [flat_map snd fst].
  change (":" ++ two_digits (minute t))%string
    with (String ":" (two_digits (minute t))).
  cbv beta iota. rewrite E2. reflexivity.
Qed.


Lemma asr_time_returns_strftime tzdata lat lon d shadow_len tz s :
  asr_time tzdata lat lon d shadow_len tz = Ok s ->
  exists t, s = strftime_HM t.
Proof.
  unfold asr_time. cbv zeta.
  repeat match goal with
    | |- bind ?r _ = Ok _ -> _ => destruct r; cbn [bind]; [| discriminate]
    end.
  intros H. injection H as <-. eexists; reflexivity.
Qed.

Lemma last_third_time_returns_strftime tzdata sunset_str fajr_str tz d s :
  last_third_time tzdata sunset_str fajr_str tz d = Ok s ->
  exists t, s = strftime_HM t.
Proof.
  unfold last_third_time. cbv zeta.
  repeat match goal with
    | |- bind ?r _ = Ok _ -> _ => destruct r; cbn [bind]; [| discriminate]
    end.
  intros H. injection H as <-. eexists; reflexivity.
Qed.

(** X10.  A string returned by [asr_time] or by [last_third_time] is a
    two-digit hour from 00 to 23, a colon and a two-digit minute from 00
    to 59, and [strptime] with ["%H:%M"] reads that hour and minute back
    from it. *)
Theorem returned_clock_well_formed tzdata s :
  (exists lat lon d shadow_len tz,
      asr_time tzdata lat lon d shadow_len tz = Ok s)
  \/ (exists sunset_str fajr_str tz d,
         last_third_time tzdata sunset_str fajr_str tz d = Ok s) ->
  exists h m,
    0 <= h <= 23 /\ 0 <= m <= 59 /\
    s = (two_digits h ++ ":" ++ two_digits m)%string /\
    strptime_HM s = Ok (h, m).
Proof.
  intros H.
  assert (Ht : exists t, s = strftime_HM t).
  { destruct H as [(lat & lon & d & sl & tz & H) | (ss & fs & tz & d & H)].
    - eapply asr_time_returns_strftime; eassumption.
    - eapply last_third_time_returns_strftime; eassumption. }
  destruct Ht as [t ->].
  exists (hour t), (minute t).
  destruct (hour_minute_range t) as [Hh Hm].
  repeat split; try lia; try reflexivity.
  apply strptime_strftime.
Qed.

Lemma returned_clock_well_formed_witness :
  exists h m,
    0 <= h <= 23 /\ 0 <= m <= 59 /\
    "00:40"%string = (two_digits h ++ ":" ++ two_digits m)%string /\
    strptime_HM "00:40" = Ok (h, m).
Proof.
  apply (returned_clock_well_formed example_tzdata "00:40").
  right. exists "18:00"%string, "04:00"%string, "UTC"%string, (mkdate 2024 11 3).
  reflexivity.
Defined.

Local Open Scope R_scope.

(** [asr_clock] on a value of [asr_utc] within the day, in a known zone. *)
Lemma asr_clock_local tzdata u d tz z :
  pydate d = true -> 0 <= u < 24 -> tzdata tz = Some z ->
  let o := ymd2ord (year d) (month d) (day d) in
  let s := (60 * Zfloor (u * 60))%Z in
  let off := utcoffset z (o * usec_per_day + s * 1000000)%Z in
  asr_clock tzdata u d tz
  = if ((0 <? o + (s + off) / 86400) && (o + (s + off) / 86400 <=? MAXORDINAL))%Z
    then Ok (clock_HM (s + off))
    else Raise OverflowError.
Proof.
  intros Hd Hr Htz o s off.
  destruct (clock_fields u (proj1 Hr)) as (Hhr & Hmn & H0 & Hm & _).
  cbv zeta in *. rewrite Hhr in Hmn.
  assert (Hlt : (Zfloor u < 24)%Z).
  { apply lt_IZR. pose proof (Zfloor_bound u). lra. }
  assert (Hs : (Zfloor u * 3600 + Zfloor ((u - IZR (Zfloor u)) * 60) * 60 = s)%Z).
  { replace ((u - IZR (Zfloor u)) * 60) with (u * 60 + IZR (- (60 * Zfloor u)))
      by (rewrite opp_IZR, mult_IZR; ring).
    rewrite Zfloor_addz. unfold s. ring. }
  unfold asr_clock. cbv zeta. rewrite Hhr, Hmn.
  rewrite datetime_new_ok by (try assumption; lia). cbn [bind].
  unfold pytz_timezone. rewrite Htz. cbn [bind].
  unfold astimezone. rewrite Hs. fold o. fold off.
  rewrite datetime_add_any.
  break_if; cbn [bind]; [| reflexivity].
  now rewrite strftime_HM_any.
Qed.

(** X9.  When [asr_utc] returns [u] with [0 <= u < 24] and the zone is
    known, [asr_time] returns the local wall clock of the UTC minute
    [floor (60 u)] (the seconds are cut off, not rounded), the clock
    wrapping at midnight; it raises [OverflowError] only when the local
    date leaves the range of [datetime]. *)
Theorem asr_time_local_clock tzdata lat lon d shadow_len tz z u :
  pydate d = true -> asr_utc lat lon d shadow_len = Ok u -> 0 <= u < 24 ->
  tzdata tz = Some z ->
  let o := ymd2ord (year d) (month d) (day d) in
  let s := (60 * Zfloor (u * 60))%Z in
  let off := utcoffset z (o * usec_per_day + s * 1000000)%Z in
  asr_time tzdata lat lon d shadow_len tz
  = if ((0 <? o + (s + off) / 86400) && (o + (s + off) / 86400 <=? MAXORDINAL))%Z
    then Ok (clock_HM (s + off))
    else Raise OverflowError.
Proof.
  intros Hd Hu Hr Htz o s off.
  rewrite asr_time_stages, Hu. cbn [bind].
  now apply asr_clock_local.
Qed.

Lemma asr_time_local_clock_witness :
  exists u,
    asr_utc 21.4225 39.8262 new_year_2000 1 = Ok u /\
    asr_time example_tzdata 21.4225 39.8262 new_year_2000 1 "Asia/Riyadh"
    = Ok (clock_HM (60 * Zfloor (u * 60) + 10800)).
Proof.
  destruct asr_utc_mecca as (u1 & u2 & H1 & _ & Hl & Hord & Hu).
  exists u1. split; [exact H1 |].
  assert (Hr : 0 <= u1 < 24) by lra.
  rewrite (asr_time_local_clock example_tzdata 21.4225 39.8262 new_year_2000 1
             "Asia/Riyadh" (mktz (fun _ => 10800%Z)) u1 eq_refl H1 Hr eq_refl).
  cbv zeta. cbn [utcoffset].
  assert (H0 : (0 <= Zfloor (u1 * 60))%Z) by (apply Zfloor_lub; lra).
  assert (H1' : (Zfloor (u1 * 60) < 1260)%Z).
  { apply lt_IZR. pose proof (Zfloor_bound (u1 * 60)). lra. }
  change (ymd2ord (year new_year_2000) (month new_year_2000) (day new_year_2000))
    with 730120%Z.
  replace ((60 * Zfloor (u1 * 60) + 10800) / 86400)%Z with 0%Z
    by (symmetry; apply Z.div_small; lia).
  reflexivity.
Defined.

End ClockStringFacts.

(** ** The order of the two Asr clock times *)

Module HanafiFacts.
Import Calendar Datetime PyMath Spec Prayer PyMathFacts SolarFacts TrigFacts.
Import CalendarFacts DatetimeFacts NightFacts WinterFacts RangeFacts AsrFacts.
Import ShadowFacts ClockStringFacts.


Local Open Scope R_scope.



End HanafiFacts.


Module NightOutcomeFacts.
Import Calendar Datetime PyMath Spec Prayer PyMathFacts SolarFacts TrigFacts.
Import CalendarFacts DatetimeFacts NightFacts RangeFacts AsrFacts ShadowFacts.
Import ClockStringFacts.
Local Open Scope Z_scope.

(** The statements of [last_third_time] after both times are parsed. *)
Lemma last_third_time_parsed tzdata sunset_str fajr_str tz z d hs ms hf mf :
  tzdata tz = Some z -> pydate d = true ->
  strptime_HM sunset_str = Ok (hs, ms) ->
  strptime_HM fajr_str = Ok (hf, mf) ->
  let S := hs * 3600 + ms * 60 in
  let F := hf * 3600 + mf * 60 in
  last_third_time tzdata sunset_str fajr_str tz d
  = if (F <=? S) && (ymd2ord (year d) (month d) (day d) =? MAXORDINAL)
    then Raise OverflowError
    else Ok (clock_HM (spec_last_third S F)).
Proof.
  intros Htz Hd Hs Hf S F.
  destruct (strptime_HM_range _ _ _ Hs) as [Hhs Hms].
  destruct (strptime_HM_range _ _ _ Hf) as [Hhf Hmf].
  pose proof (ymd2ord_pos d Hd) as Hpos. pose proof (ymd2ord_max d Hd) as Hmax.
  unfold last_third_time, pytz_timezone. rewrite Htz, Hs, Hf. cbn [bind fst snd].
  rewrite !datetime_new_ok by assumption. cbn [bind].
  set (o := ymd2ord (year d) (month d) (day d)) in *.
  fold S F.
  assert (HS : 0 <= S < 86400) by (subst S; lia).
  assert (HF : 0 <= F < 86400) by (subst F; lia).
  unfold spec_last_third.
  replace (o * usec_per_day + F * 1000000 <=? o * usec_per_day + S * 1000000)
    with (F <=? S) by (unfold usec_per_day; lia).
  destruct (F <=? S) eqn:Hcmp; cbn [andb].
  - change usec_per_day with (86400 * 1000000) at 2.
    rewrite datetime_add_any.
    replace ((F + 86400) / 86400) with 1 by zlia.
    destruct (o =? MAXORDINAL) eqn:Ho.
    + replace ((0 <? o + 1) && (o + 1 <=? MAXORDINAL)) with false by lia.
      reflexivity.
    + replace ((0 <? o + 1) && (o + 1 <=? MAXORDINAL)) with true by lia.
      cbn [bind].
      replace ((o * usec_per_day + (F + 86400) * 1000000
                - (o * usec_per_day + S * 1000000)) * 2)
        with (((F + 86400 - S) / 60) * 60 * 1000000 * 2)
        by (subst S F; zlia).
      rewrite two_thirds_exact. cbn [bind].
      rewrite datetime_add_any.
      replace ((0 <? o + (S + (F + 86400 - S) / 60 * 40) / 86400)
               && (o + (S + (F + 86400 - S) / 60 * 40) / 86400 <=? MAXORDINAL))
        with true by (subst S F; zlia).
      cbn [bind]. rewrite strftime_HM_any.
      do 2 f_equal. subst S F. zlia.
  - cbn [bind].
    replace ((o * usec_per_day + F * 1000000 - (o * usec_per_day + S * 1000000)) * 2)
      with (((F - S) / 60) * 60 * 1000000 * 2) by (subst S F; zlia).
    rewrite two_thirds_exact. cbn [bind].
    rewrite datetime_add_any.
    replace ((0 <? o + (S + (F - S) / 60 * 40) / 86400)
             && (o + (S + (F - S) / 60 * 40) / 86400 <=? MAXORDINAL))
      with true by (subst S F; zlia).
    cbn [bind]. rewrite strftime_HM_any.
    do 2 f_equal. subst S F. zlia.
Qed.

(** X11.  Every outcome of [last_third_time] on a date a [datetime] can
    hold: an unknown zone raises first, then a sunset string [strptime]
    rejects, then such a dawn string; a dawn not after sunset on 9999-12-31
    raises [OverflowError]; otherwise the clock of sunset plus two thirds
    of the night is returned. *)
Theorem last_third_time_outcome tzdata sunset_str fajr_str tz d :
  pydate d = true ->
  last_third_time tzdata sunset_str fajr_str tz d
  = match tzdata tz with
    | None => Raise (UnknownTimeZoneError tz)
    | Some _ =>
        match strptime_HM sunset_str with
        | Raise e => Raise e
        | Ok (hs, ms) =>
            match strptime_HM fajr_str with
            | Raise e => Raise e
            | Ok (hf, mf) =>
                let S := hs * 3600 + ms * 60 in
                let F := hf * 3600 + mf * 60 in
                if (F <=? S)
                   && (ymd2ord (year d) (month d) (day d) =? MAXORDINAL)
                then Raise OverflowError
                else Ok (clock_HM (spec_last_third S F))
            end
        end
    end.
Proof.
  intros Hd.
  destruct (tzdata tz) as [z |] eqn:Htz;
    [| now apply last_third_time_unknown_zone].
  destruct (strptime_HM sunset_str) as [[hs ms] | e] eqn:Hs.
  - destruct (strptime_HM fajr_str) as [[hf mf] | e] eqn:Hf.
    + now apply last_third_time_parsed with (z := z).
    + destruct (strptime_HM_range _ _ _ Hs) as [Hhs Hms].
      unfold last_third_time, pytz_timezone. rewrite Htz, Hs, Hf.
      cbn [bind fst snd]. now rewrite datetime_new_ok by assumption.
  - unfold last_third_time, pytz_timezone. now rewrite Htz, Hs.
Qed.

Lemma last_third_time_outcome_witness :
  last_third_time example_tzdata "18:00" "04:00" "UTC" (mkdate 9999 12 31)
  = Raise OverflowError.
Proof.
  rewrite (last_third_time_outcome example_tzdata "18:00" "04:00" "UTC"
             (mkdate 9999 12 31) eq_refl).
  reflexivity.
Defined.

(** X12.  On dates before 9999-12-31 the reference date has no effect on
    the outcome of [last_third_time]. *)
Theorem last_third_time_any_date tzdata sunset_str fajr_str tz d1 d2 :
  pydate d1 = true -> pydate d2 = true ->
  ymd2ord (year d1) (month d1) (day d1) < MAXORDINAL ->
  ymd2ord (year d2) (month d2) (day d2) < MAXORDINAL ->
  last_third_time tzdata sunset_str fajr_str tz d1
  = last_third_time tzdata sunset_str fajr_str tz d2.
Proof.
  intros H1 H2 M1 M2.
  destruct (tzdata tz) as [z |] eqn:Htz;
    [| now rewrite !last_third_time_unknown_zone].
  destruct (strptime_HM sunset_str) as [[hs ms] | e] eqn:Hs.
  - destruct (strptime_HM fajr_str) as [[hf mf] | e] eqn:Hf.
    + rewrite (last_third_time_eq tzdata sunset_str fajr_str tz z d1 hs ms hf mf),
        (last_third_time_eq tzdata sunset_str fajr_str tz z d2 hs ms hf mf);
        auto.
    + destruct (strptime_HM_range _ _ _ Hs) as [Hhs Hms].
      unfold last_third_time, pytz_timezone. rewrite Htz, Hs, Hf.
      cbn [bind fst snd]. now rewrite !datetime_new_ok by assumption.
  - unfold last_third_time, pytz_timezone. now rewrite Htz, Hs.
Qed.

Lemma last_third_time_any_date_witness :
  last_third_time example_tzdata "19:30" "05:00" "UTC" (mkdate 2024 11 3)
  = last_third_time example_tzdata "19:30" "05:00" "UTC" (mkdate 1999 2 28).
Proof.
  apply (last_third_time_any_date example_tzdata "19:30" "05:00" "UTC"
           (mkdate 2024 11 3) (mkdate 1999 2 28)); reflexivity.
Defined.

End NightOutcomeFacts.


(** ** Facts about [get_prayer_times] and [main] *)

Module AppFacts.
Import Calendar Datetime PyMath Spec Prayer App.
Import DatetimeFacts NightFacts AsrFacts ShadowFacts ClockStringFacts.

Lemma dict_get_set_same k v d : dict_get k (dict_set k v d) = Some v.
Proof.
  induction d as [| [k' v'] d IH]; cbn [dict_set dict_get].
  - now rewrite String.eqb_refl.
  - destruct (String.eqb k k') eqn:E; cbn [dict_get]; rewrite E; auto.
Qed.

Lemma dict_get_set_other k k' v d :
  k <> k' -> dict_get k (dict_set k' v d) = dict_get k d.
Proof.
  intros Hne. apply String.eqb_neq in Hne.
  induction d as [| [k0 v0] d IH]; cbn [dict_set dict_get].
  - now rewrite Hne.
  - destruct (String.eqb k' k0) eqn:E; cbn [dict_get].
    + apply String.eqb_eq in E. subst k0. now rewrite Hne.
    + destruct (String.eqb k k0); auto.
Qed.

Lemma dict_get_filter (p : string -> bool) k d :
  dict_get k (filter (fun kv => p (fst kv)) d)
  = if p k then dict_get k d else None.
Proof.
  induction d as [| [k0 v0] d IH]; cbn [filter dict_get fst].
  - now destruct (p k).
  - destruct (String.eqb k k0) eqn:E.
    + apply String.eqb_eq in E. subst k0.
      destruct (p k) eqn:Hp; cbn [dict_get].
      * now rewrite String.eqb_refl.
      * exact IH.
    + destruct (p k0); cbn [dict_get]; rewrite ?E; exact IH.
Qed.

Lemma is_shown_In k : is_shown k = true <-> In k shown_prayers.
Proof.
  unfold is_shown. rewrite existsb_exists. split.
  - intros (x & Hx & E). apply String.eqb_eq in E. now subst.
  - intros H. exists k. split; [assumption | apply String.eqb_refl].
Qed.


Section Environment.

Variable tzdata : string -> option tzinfo.
Variable http_get : request -> outcome json.
Variables now_request now_asr now_night : date.

Local Abbreviation get_prayer_times :=
  (get_prayer_times tzdata http_get now_request now_asr now_night).

(** The request [get_prayer_times] sends. *)
Local Abbreviation params latitude longitude madhhab timezone_str :=
  (mkrequest "https://api.aladhan.com/v1/timings" latitude longitude 5
     (if (madhhab =? 1)%Z then 0%Z else 1%Z) now_request timezone_str).

(** X13.  When the service answers with a code other than 200,
    [get_prayer_times] raises the API error built from the [status] text
    ("Unknown" when there is none), a [TypeError] when the status is not a
    string, and computes nothing. *)
Theorem get_prayer_times_api_error latitude longitude madhhab timezone_str d code :
  http_get (params latitude longitude madhhab timezone_str) = Return (JDict d) ->
  dict_get "code" d = Some code -> ne_200 code = true ->
  get_prayer_times latitude longitude madhhab timezone_str
  = match dict_get "status" d with
    | None => Throw (APIError "API error: Unknown")
    | Some (JStr status) => Throw (APIError ("API error: " ++ status))
    | Some _ => Throw TypeError
    end.
Proof.
  intros Hget Hcode Hne. unfold App.get_prayer_times. cbv zeta.
  rewrite Hget. cbn [and_then subscript]. rewrite Hcode. cbn [and_then].
  now rewrite Hne.
Qed.

(** X14.  On a well-formed answer with code 200, when [asr_time] and
    [last_third_time] return, [get_prayer_times] returns the date text of
    the service and a table in which [Asr] is the computed time in place
    of the service's, [Lastthird] is the computed last third, [Fajr],
    [Sunrise], [Dhuhr], [Maghrib] and [Isha] are as the service gave
    them, and every other key is absent. *)
Theorem get_prayer_times_returns latitude longitude madhhab timezone_str
    d code inner timings date_obj gregorian date_str asr sunset_str fajr_str
    lastthird :
  http_get (params latitude longitude madhhab timezone_str) = Return (JDict d) ->
  dict_get "code" d = Some code -> ne_200 code = false ->
  dict_get "data" d = Some (JDict inner) ->
  dict_get "timings" inner = Some (JDict timings) ->
  dict_get "date" inner = Some (JDict date_obj) ->
  dict_get "gregorian" date_obj = Some (JDict gregorian) ->
  dict_get "date" gregorian = Some date_str ->
  asr_time tzdata latitude longitude now_asr
    (if (madhhab =? 1)%Z then 1%R else 2%R) timezone_str = Ok asr ->
  dict_get "Sunset" timings = Some (JStr sunset_str) ->
  dict_get "Fajr" timings = Some (JStr fajr_str) ->
  last_third_time tzdata sunset_str fajr_str timezone_str now_night
  = Ok lastthird ->
  exists table,
    get_prayer_times latitude longitude madhhab timezone_str
    = Return (table, date_str) /\
    dict_get "Asr" table = Some (JStr asr) /\
    dict_get "Lastthird" table = Some (JStr lastthird) /\
    (forall k, In k ["Fajr"; "Sunrise"; "Dhuhr"; "Maghrib"; "Isha"]%string ->
               dict_get k table = dict_get k timings) /\
    (forall k, ~ In k shown_prayers -> dict_get k table = None).
Proof.
  intros Hget Hcode H200 Hdata Htim Hdate Hgreg Hds Hasr Hsun Hfajr Hlast.
  eexists. split.
  - unfold App.get_prayer_times. cbv zeta.
    rewrite Hget. cbn [and_then subscript]. rewrite Hcode. cbn [and_then].
    rewrite H200, Hdata. cbn [and_then subscript]. rewrite Htim, Hdate.
    cbn [and_then subscript]. rewrite Hgreg. cbn [and_then subscript].
    rewrite Hds. cbn [and_then]. rewrite Hasr.
    cbn [call and_then setitem subscript].
    rewrite !dict_get_set_other by discriminate.
    rewrite Hsun, Hfajr. cbn [and_then call_last_third_time].
    rewrite Hlast. cbn [call and_then setitem]. reflexivity.
  - change (fun kv : string * json => existsb (String.eqb (fst kv)) shown_prayers)
      with (fun kv : string * json => is_shown (fst kv)).
    repeat split.
    + rewrite dict_get_filter. change (is_shown "Asr") with true. cbv iota.
      rewrite dict_get_set_other by discriminate. apply dict_get_set_same.
    + rewrite dict_get_filter. change (is_shown "Lastthird") with true. cbv iota.
      apply dict_get_set_same.
    + intros k Hk. rewrite dict_get_filter.
      assert (Hs : is_shown k = true).
      { apply is_shown_In. unfold shown_prayers. cbn [In] in *. tauto. }
      rewrite Hs.
      assert (k <> "Asr"%string /\ k <> "Lastthird"%string).
      { cbn [In] in Hk. split; intros ->;
          repeat (destruct Hk as [Hk | Hk]; [discriminate |]); destruct Hk. }
      rewrite !dict_get_set_other by tauto. reflexivity.
    + intros k Hk. rewrite dict_get_filter.
      destruct (is_shown k) eqn:Hs; [| reflexivity].
      apply is_shown_In in Hs. contradiction.
Qed.


Lemma subscript_returns x k v :
  subscript x k = Return v -> exists d, x = JDict d /\ dict_get k d = Some v.
Proof.
  destruct x; cbn [subscript]; try discriminate.
  destruct (dict_get k d) eqn:E; [| discriminate].
  intros H. injection H as ->. eauto.
Qed.

Lemma call_last_third_time_returns sunset fajr timezone_str now s :
  call_last_third_time tzdata sunset fajr timezone_str now = Return s ->
  exists sunset_str fajr_str,
    sunset = JStr sunset_str /\ fajr = JStr fajr_str /\
    last_third_time tzdata sunset_str fajr_str timezone_str now = Ok s.
Proof.
  unfold call_last_third_time.
  destruct sunset;
    try (destruct (pytz_timezone tzdata timezone_str); discriminate).
  destruct fajr;
    try (destruct (pytz_timezone tzdata timezone_str); cbn [call and_then];
         [destruct (strptime_HM s0); cbn [call and_then];
          [destruct (datetime_new _ _ _ _ _) |] |]; discriminate).
  destruct (last_third_time _ _ _ _ _) eqn:E; cbn [call]; [| discriminate].
  intros H. injection H as ->. eauto.
Qed.

(** Every return of [get_prayer_times] comes from an answer of the shape
    the function reads. *)
Lemma get_prayer_times_inversion latitude longitude madhhab timezone_str
    table date_str :
  get_prayer_times latitude longitude madhhab timezone_str
  = Return (table, date_str) ->
  exists timings asr sunset_str fajr_str lastthird,
    asr_time tzdata latitude longitude now_asr
      (if (madhhab =? 1)%Z then 1%R else 2%R) timezone_str = Ok asr /\
    dict_get "Sunset" timings = Some (JStr sunset_str) /\
    dict_get "Fajr" timings = Some (JStr fajr_str) /\
    last_third_time tzdata sunset_str fajr_str timezone_str now_night
    = Ok lastthird /\
    table = filter (fun kv => is_shown (fst kv))
              (dict_set "Lastthird" (JStr lastthird)
                 (dict_set "Asr" (JStr asr) timings)).
Proof.
  unfold App.get_prayer_times. cbv zeta.
  destruct (http_get _) as [data |]; cbn [and_then]; [| discriminate].
  destruct (subscript data "code") as [code |] eqn:Hcode; cbn [and_then];
    [| discriminate].
  destruct (ne_200 code).
  { destruct data; try discriminate.
    destruct (dict_get "status" d) as [[] |]; discriminate. }
  destruct (subscript data "data") as [inner |]; cbn [and_then]; [| discriminate].
  destruct (subscript inner "timings") as [timings |]; cbn [and_then];
    [| discriminate].
  destruct (subscript inner "date") as [date_obj |]; cbn [and_then];
    [| discriminate].
  destruct (subscript date_obj "gregorian") as [greg |]; cbn [and_then];
    [| discriminate].
  destruct (subscript greg "date") as [ds |]; cbn [and_then]; [| discriminate].
  destruct (asr_time _ _ _ _ _ _) as [asr |] eqn:Hasr; cbn [call and_then];
    [| discriminate].
  destruct timings as [| | | | | | tim]; cbn [setitem and_then]; try discriminate.
  destruct (subscript (JDict (dict_set "Asr" (JStr asr) tim)) "Sunset")
    as [sunset |] eqn:Hsun; cbn [and_then]; [| discriminate].
  destruct (subscript (JDict (dict_set "Asr" (JStr asr) tim)) "Fajr")
    as [fajr |] eqn:Hfajr; cbn [and_then]; [| discriminate].
  destruct (call_last_third_time _ _ _ _ _) as [lastthird |] eqn:Hlast;
    cbn [and_then setitem]; [| discriminate].
  intros H. injection H as <- <-.
  apply call_last_third_time_returns in Hlast.
  destruct Hlast as (ss & fs & -> & -> & Hlast).
  apply subscript_returns in Hsun, Hfajr.
  destruct Hsun as (d1 & E1 & Hsun). injection E1 as <-.
  destruct Hfajr as (d2 & E2 & Hfajr). injection E2 as <-.
  rewrite dict_get_set_other in Hsun, Hfajr by discriminate.
  exists tim, asr, ss, fs, lastthird. repeat split; assumption.
Qed.

(** X15.  Whatever table [get_prayer_times] returns, its keys are among
    the seven shown prayers, and it holds [Asr] as the string [asr_time]
    returned, [Fajr] as the string of the service, and [Lastthird] as the
    string [last_third_time] returned for the service's sunset and dawn. *)
Theorem get_prayer_times_table latitude longitude madhhab timezone_str
    table date_str :
  get_prayer_times latitude longitude madhhab timezone_str
  = Return (table, date_str) ->
  (forall k v, In (k, v) table -> In k shown_prayers)
  /\ (exists asr,
         dict_get "Asr" table = Some (JStr asr) /\
         asr_time tzdata latitude longitude now_asr
           (if (madhhab =? 1)%Z then 1%R else 2%R) timezone_str = Ok asr)
  /\ (exists sunset_str fajr_str lastthird,
         dict_get "Fajr" table = Some (JStr fajr_str) /\
         dict_get "Lastthird" table = Some (JStr lastthird) /\
         last_third_time tzdata sunset_str fajr_str timezone_str now_night
         = Ok lastthird).
Proof.
  intros H. apply get_prayer_times_inversion in H.
  destruct H as (tim & asr & ss & fs & l & Hasr & Hsun & Hfajr & Hlast & ->).
  split; [| split].
  - intros k v Hin. apply filter_In in Hin. destruct Hin as [_ Hs].
    now apply is_shown_In.
  - exists asr. split; [| assumption].
    rewrite dict_get_filter. change (is_shown "Asr") with true. cbv iota.
    rewrite dict_get_set_other by discriminate. apply dict_get_set_same.
  - exists ss, fs, l. split; [| split; [| assumption]].
    + rewrite dict_get_filter. change (is_shown "Fajr") with true. cbv iota.
      now rewrite !dict_get_set_other by discriminate.
    + rewrite dict_get_filter. change (is_shown "Lastthird") with true.
      cbv iota. apply dict_get_set_same.
Qed.

(** X16.  [get_prayer_times] treats every [madhhab] other than 1 as the
    Hanafi choice 2: the same request is sent and the same shadow length
    is used. *)
Theorem get_prayer_times_other_madhhab latitude longitude madhhab timezone_str :
  madhhab <> 1%Z ->
  get_prayer_times latitude longitude madhhab timezone_str
  = get_prayer_times latitude longitude 2 timezone_str.
Proof.
  intros Hm. unfold App.get_prayer_times.
  apply Z.eqb_neq in Hm. rewrite Hm. reflexivity.
Qed.

Lemma asr_time_unknown_zone_not_ok lat lon d shadow_len tz s :
  tzdata tz = None -> asr_time tzdata lat lon d shadow_len tz <> Ok s.
Proof.
  intros Htz. rewrite SolarFacts.asr_time_stages.
  destruct (asr_utc lat lon d shadow_len); [| discriminate].
  cbn [bind]. unfold asr_clock, pytz_timezone. cbv zeta. rewrite Htz.
  destruct (datetime_new _ _ _ _ _); discriminate.
Qed.

(** X17.  With a zone name the database does not know, [get_prayer_times]
    never returns a table, whatever the service answers. *)
Theorem get_prayer_times_unknown_zone latitude longitude madhhab timezone_str r :
  tzdata timezone_str = None ->
  get_prayer_times latitude longitude madhhab timezone_str <> Return r.
Proof.
  intros Htz H. destruct r as [table date_str].
  apply get_prayer_times_inversion in H.
  destruct H as (tim & asr & ss & fs & l & Hasr & _).
  revert Hasr. now apply asr_time_unknown_zone_not_ok.
Qed.


(** X18.  After a well-formed answer with code 200, an exception of
    [asr_time] leaves [get_prayer_times] as it is, before the timings are
    read; when [asr_time] returns, a table without [Sunset], then one
    without [Fajr], raises [KeyError] for that key. *)
Theorem get_prayer_times_failures latitude longitude madhhab timezone_str
    d code inner timings date_obj gregorian date_str :
  http_get (params latitude longitude madhhab timezone_str) = Return (JDict d) ->
  dict_get "code" d = Some code -> ne_200 code = false ->
  dict_get "data" d = Some (JDict inner) ->
  dict_get "timings" inner = Some (JDict timings) ->
  dict_get "date" inner = Some (JDict date_obj) ->
  dict_get "gregorian" date_obj = Some (JDict gregorian) ->
  dict_get "date" gregorian = Some date_str ->
  let asr := asr_time tzdata latitude longitude now_asr
               (if (madhhab =? 1)%Z then 1%R else 2%R) timezone_str in
  (forall e, asr = Raise e ->
             get_prayer_times latitude longitude madhhab timezone_str
             = Throw (Core e))
  /\ (forall s, asr = Ok s -> dict_get "Sunset" timings = None ->
                get_prayer_times latitude longitude madhhab timezone_str
                = Throw (KeyError "Sunset"))
  /\ (forall s sunset, asr = Ok s ->
                       dict_get "Sunset" timings = Some sunset ->
                       dict_get "Fajr" timings = None ->
                       get_prayer_times latitude longitude madhhab timezone_str
                       = Throw (KeyError "Fajr")).
Proof.
  intros Hget Hcode H200 Hdata Htim Hdate Hgreg Hds asr.
  assert (Hpre :
             get_prayer_times latitude longitude madhhab timezone_str
             = (asr_corrected <~ call asr ;;
                timings <~ setitem (JDict timings) "Asr" (JStr asr_corrected) ;;
                sunset <~ subscript timings "Sunset" ;;
                fajr <~ subscript timings "Fajr" ;;
                lastthird <~ call_last_third_time tzdata sunset fajr
                               timezone_str now_night ;;
                timings <~ setitem timings "Lastthird" (JStr lastthird) ;;
                match timings with
                | JDict d =>
                    Return (filter (fun kv => existsb (String.eqb (fst kv))
                                                shown_prayers) d, date_str)
                | _ => Throw TypeError
                end)).
  { unfold App.get_prayer_times. cbv zeta.
    rewrite Hget. cbn [and_then subscript]. rewrite Hcode. cbn [and_then].
    rewrite H200, Hdata. cbn [and_then subscript]. rewrite Htim, Hdate.
    cbn [and_then subscript]. rewrite Hgreg. cbn [and_then subscript].
    rewrite Hds. reflexivity. }
  rewrite Hpre.
  split; [| split].
  - intros e ->. reflexivity.
  - intros s -> Hs. cbn [call and_then setitem subscript].
    now rewrite dict_get_set_other, Hs by discriminate.
  - intros s sunset -> Hs Hf. cbn [call and_then setitem subscript].
    now rewrite !dict_get_set_other, Hs, Hf by discriminate.
Qed.

(** The built-ins and the zone finder [main] calls. *)
Variable float_of_str : string -> option R.
Variable int_of_str : string -> option Z.
Variable timezone_at : R -> R -> outcome (option string).
Variable str_of_float : R -> string.
Variable repr_json : json -> string.

Local Abbreviation main :=
  (main tzdata http_get now_request now_asr now_night float_of_str int_of_str
     timezone_at str_of_float repr_json).
Local Abbreviation print_prayers := (print_prayers repr_json).
Local Abbreviation prayer_line := (prayer_line repr_json).

Lemma print_prayers_run timings prayers w :
  print_prayers timings prayers w
  = match first_missing timings prayers with
    | None =>
        (mkworld (stdin w) (stdout w ++ map (prayer_line timings) prayers),
         Return tt)
    | Some k =>
        (fst (print_prayers timings prayers w), Throw (KeyError k))
    end.
Proof.
  revert w. induction prayers as [| p rest IH]; intros w.
  - cbn. rewrite app_nil_r. now destruct w.
  - cbn [App.print_prayers first_missing].
    unfold io_bind at 1. unfold io_of at 1. cbn [subscript].
    destruct (dict_get p timings) as [v |] eqn:E; [| reflexivity].
    unfold io_bind at 1. unfold print at 1. cbn [stdin stdout].
    rewrite IH. cbn [stdin stdout].
    destruct (first_missing timings rest); [reflexivity |].
    cbn [map]. unfold App.prayer_line at 2. rewrite E.
    now rewrite <- app_assoc.
Qed.


Lemma main_run a b c rest out lat lon choice found timings date_str :
  float_of_str a = Some lat -> float_of_str b = Some lon ->
  int_of_str c = Some choice -> timezone_at lat lon = Return found ->
  let madhhab := if ((choice =? 1) || (choice =? 2))%Z then choice else 1%Z in
  let timezone_str := match found with Some name => name | None => "UTC"%string end in
  get_prayer_times lat lon madhhab timezone_str = Return (timings, date_str) ->
  main (mkworld (a :: b :: c :: rest) out)
  = print_prayers timings shown_prayers
      (mkworld rest
         (out ++ main_prelude choice found
          ++ [main_header str_of_float repr_json date_str lat lon
                timezone_str])).
Proof.
  intros Ha Hb Hc Htz madhhab timezone_str. subst madhhab timezone_str.
  unfold App.main, main_prelude, main_header.
  unfold io_bind, print, input, io_of, parse_float, parse_int.
  cbn [stdin stdout]. rewrite Ha. cbn [stdin stdout]. rewrite Hb.
  cbn [stdin stdout]. rewrite Hc.
  destruct ((choice =? 1) || (choice =? 2))%Z; cbn [negb stdin stdout];
    rewrite Htz; destruct found as [name |]; cbn [stdin stdout];
    intros Hg; rewrite Hg; cbn [stdin stdout];
    repeat rewrite <- app_assoc; reflexivity.
Qed.


Lemma returned_table_lookups latitude longitude madhhab timezone_str
    table date_str :
  get_prayer_times latitude longitude madhhab timezone_str
  = Return (table, date_str) ->
  dict_get "Fajr" table <> None /\ dict_get "Asr" table <> None
  /\ dict_get "Lastthird" table <> None.
Proof.
  intros H. apply get_prayer_times_inversion in H.
  destruct H as (tim & asr & ss & fs & l & _ & _ & Hfajr & _ & ->).
  rewrite !dict_get_filter.
  change (is_shown "Fajr") with true. change (is_shown "Asr") with true.
  change (is_shown "Lastthird") with true. cbv iota.
  rewrite !dict_get_set_same.
  rewrite (dict_get_set_other "Asr" "Lastthird"), dict_get_set_same by discriminate.
  rewrite !(dict_get_set_other "Fajr"), Hfajr by discriminate.
  repeat split; discriminate.
Qed.

Lemma first_missing_shown latitude longitude madhhab timezone_str
    table date_str :
  get_prayer_times latitude longitude madhhab timezone_str
  = Return (table, date_str) ->
  first_missing table shown_prayers
  = first_missing table ["Sunrise"; "Dhuhr"; "Maghrib"; "Isha"]%string.
Proof.
  intros H. apply returned_table_lookups in H. destruct H as (Hf & Ha & Hl).
  unfold shown_prayers. cbn [first_missing].
  destruct (dict_get "Fajr" table); [| contradiction].
  destruct (dict_get "Asr" table); [| contradiction].
  destruct (dict_get "Lastthird" table); [| contradiction].
  destruct (dict_get "Sunrise" table); [| reflexivity].
  destruct (dict_get "Dhuhr" table); [| reflexivity].
  destruct (dict_get "Maghrib" table); [| reflexivity].
  destruct (dict_get "Isha" table); reflexivity.
Qed.

(** X19.  When the three inputs parse and [get_prayer_times] returns a
    table that holds [Sunrise], [Dhuhr], [Maghrib] and [Isha], [main]
    consumes three lines and prints, in this order: its prompts, the
    warning for a choice other than 1 or 2 (which is then taken as 1),
    the warning for a location without a zone (which is then taken as
    UTC), the header, and one line for each of the seven prayers. *)
Theorem main_transcript a b c rest out lat lon choice found timings date_str :
  float_of_str a = Some lat -> float_of_str b = Some lon ->
  int_of_str c = Some choice -> timezone_at lat lon = Return found ->
  let madhhab := if ((choice =? 1) || (choice =? 2))%Z then choice else 1%Z in
  let timezone_str := match found with Some name => name | None => "UTC"%string end in
  get_prayer_times lat lon madhhab timezone_str = Return (timings, date_str) ->
  first_missing timings ["Sunrise"; "Dhuhr"; "Maghrib"; "Isha"]%string = None ->
  main (mkworld (a :: b :: c :: rest) out)
  = (mkworld rest
       (out ++ main_prelude choice found
        ++ [main_header str_of_float repr_json date_str lat lon timezone_str]
        ++ map (prayer_line timings) shown_prayers),
     Return tt).
Proof.
  intros Ha Hb Hc Htz madhhab timezone_str Hg Hall.
  rewrite (main_run a b c rest out lat lon choice found timings date_str)
    by assumption.
  rewrite print_prayers_run.
  rewrite (first_missing_shown _ _ _ _ _ _ Hg), Hall.
  cbn [stdin stdout]. now rewrite <- !app_assoc.
Qed.

(** X20.  When the three inputs parse and [get_prayer_times] returns,
    [main] ends normally if the table holds [Sunrise], [Dhuhr], [Maghrib]
    and [Isha], and otherwise raises [KeyError] for the first of these
    four that is missing: [Fajr], [Asr] and [Lastthird] are always
    there. *)
Theorem main_outcome a b c rest out lat lon choice found timings date_str :
  float_of_str a = Some lat -> float_of_str b = Some lon ->
  int_of_str c = Some choice -> timezone_at lat lon = Return found ->
  let madhhab := if ((choice =? 1) || (choice =? 2))%Z then choice else 1%Z in
  let timezone_str := match found with Some name => name | None => "UTC"%string end in
  get_prayer_times lat lon madhhab timezone_str = Return (timings, date_str) ->
  snd (main (mkworld (a :: b :: c :: rest) out))
  = match first_missing timings ["Sunrise"; "Dhuhr"; "Maghrib"; "Isha"]%string with
    | None => Return tt
    | Some k => Throw (KeyError k)
    end.
Proof.
  intros Ha Hb Hc Htz madhhab timezone_str Hg.
  rewrite (main_run a b c rest out lat lon choice found timings date_str)
    by assumption.
  rewrite print_prayers_run.
  rewrite (first_missing_shown _ _ _ _ _ _ Hg).
  destruct (first_missing timings _); reflexivity.
Qed.

(** X21.  When the three inputs parse and [get_prayer_times] raises,
    [main] ends with that exception after its prompts and warnings:
    neither the header nor a prayer line is printed, and three input
    lines are consumed. *)
Theorem main_propagates a b c rest out lat lon choice found e :
  float_of_str a = Some lat -> float_of_str b = Some lon ->
  int_of_str c = Some choice -> timezone_at lat lon = Return found ->
  let madhhab := if ((choice =? 1) || (choice =? 2))%Z then choice else 1%Z in
  let timezone_str := match found with Some name => name | None => "UTC"%string end in
  get_prayer_times lat lon madhhab timezone_str = Throw e ->
  main (mkworld (a :: b :: c :: rest) out)
  = (mkworld rest (out ++ main_prelude choice found), Throw e).
Proof.
  intros Ha Hb Hc Htz madhhab timezone_str. subst madhhab timezone_str.
  unfold App.main, main_prelude.
  unfold io_bind, print, input, io_of, parse_float, parse_int.
  cbn [stdin stdout]. rewrite Ha. cbn [stdin stdout]. rewrite Hb.
  cbn [stdin stdout]. rewrite Hc.
  destruct ((choice =? 1) || (choice =? 2))%Z; cbn [negb stdin stdout];
    rewrite Htz; destruct found as [name |]; cbn [stdin stdout];
    intros Hg; rewrite Hg; cbn [stdin stdout];
    repeat rewrite <- app_assoc; reflexivity.
Qed.

End Environment.

End AppFacts.


(** ** The worked examples of the caller *)

Module AppExamples.
Import Calendar Datetime PyMath Spec Prayer App.
Import DatetimeFacts NightFacts AsrFacts ShadowFacts AppFacts.
Local Open Scope string_scope.

Local Abbreviation example_get_prayer_times :=
  (get_prayer_times example_tzdata example_http_get new_year_2000
     new_year_2000 new_year_2000).

Local Abbreviation example_main :=
  (main example_tzdata example_http_get new_year_2000 new_year_2000
     new_year_2000 example_float_of_str example_int_of_str
     example_timezone_at example_str_of_float example_repr_json).

Local Abbreviation example_main_at zone_at :=
  (main example_tzdata example_http_get new_year_2000 new_year_2000
     new_year_2000 example_float_of_str example_int_of_str
     zone_at example_str_of_float example_repr_json).

Lemma asr_time_mecca_utc :
  exists asr,
    asr_time example_tzdata 21.4225 39.8262 new_year_2000 1 "UTC" = Ok asr.
Proof.
  destruct asr_utc_mecca as (u1 & u2 & H1 & _ & Hl & Hord & Hu).
  rewrite SolarFacts.asr_time_stages, H1. cbn [bind].
  rewrite (asr_clock_fixed_offset example_tzdata u1 new_year_2000 "UTC"
             (mktz (fun _ => 0%Z)) 0); try reflexivity; try lia; try lra.
  eexists; reflexivity.
Qed.

Lemma asr_time_mecca_hanafi_utc :
  exists asr,
    asr_time example_tzdata 21.4225 39.8262 new_year_2000 2 "UTC" = Ok asr.
Proof.
  destruct asr_utc_mecca as (u1 & u2 & _ & H2 & Hl & Hord & Hu).
  rewrite SolarFacts.asr_time_stages, H2. cbn [bind].
  rewrite (asr_clock_fixed_offset example_tzdata u2 new_year_2000 "UTC"
             (mktz (fun _ => 0%Z)) 0); try reflexivity; try lia; try lra.
  eexists; reflexivity.
Qed.

Lemma example_get_prayer_times_run :
  exists asr,
    example_get_prayer_times 21.4225 39.8262 1 "UTC"
    = Return (example_table asr, JStr "01-01-2000").
Proof.
  destruct asr_time_mecca_utc as [asr Hasr]. exists asr.
  unfold App.get_prayer_times. cbv zeta.
  change (1 =? 1)%Z with true. cbv iota.
  rewrite Hasr. reflexivity.
Qed.

Lemma get_prayer_times_rejected :
  example_get_prayer_times 21.4225 39.8262 1 "Atlantis/Poseidonis"
  = Throw (APIError "API error: Bad Request").
Proof. reflexivity. Qed.

Lemma get_prayer_times_api_error_witness :
  example_get_prayer_times 21.4225 39.8262 1 "Atlantis/Poseidonis"
  = Throw (APIError "API error: Bad Request").
Proof.
  apply (get_prayer_times_api_error example_tzdata example_http_get
           new_year_2000 new_year_2000 new_year_2000 21.4225 39.8262 1
           "Atlantis/Poseidonis" example_error (JInt 400));
    reflexivity.
Defined.

Lemma get_prayer_times_returns_witness :
  exists asr table,
    example_get_prayer_times 21.4225 39.8262 1 "UTC"
    = Return (table, JStr "01-01-2000") /\
    dict_get "Asr" table = Some (JStr asr) /\
    dict_get "Lastthird" table = Some (JStr "01:41") /\
    (forall k, In k ["Fajr"; "Sunrise"; "Dhuhr"; "Maghrib"; "Isha"] ->
               dict_get k table = dict_get k example_timings) /\
    (forall k, ~ In k shown_prayers -> dict_get k table = None).
Proof.
  destruct asr_time_mecca_utc as [asr Hasr].
  exists asr.
  eapply (get_prayer_times_returns example_tzdata example_http_get
            new_year_2000 new_year_2000 new_year_2000 21.4225 39.8262 1 "UTC"
            example_answer (JInt 200));
    try exact Hasr; reflexivity.
Defined.

Lemma get_prayer_times_table_witness :
  exists asr,
    example_get_prayer_times 21.4225 39.8262 1 "UTC"
    = Return (example_table asr, JStr "01-01-2000") /\
    (forall k v, In (k, v) (example_table asr) -> In k shown_prayers) /\
    (exists asr',
        dict_get "Asr" (example_table asr) = Some (JStr asr') /\
        asr_time example_tzdata 21.4225 39.8262 new_year_2000 1 "UTC"
        = Ok asr') /\
    (exists sunset_str fajr_str lastthird,
        dict_get "Fajr" (example_table asr) = Some (JStr fajr_str) /\
        dict_get "Lastthird" (example_table asr) = Some (JStr lastthird) /\
        last_third_time example_tzdata sunset_str fajr_str "UTC" new_year_2000
        = Ok lastthird).
Proof.
  destruct example_get_prayer_times_run as [asr H].
  exists asr. split; [exact H |].
  exact (get_prayer_times_table example_tzdata example_http_get
           new_year_2000 new_year_2000 new_year_2000 21.4225 39.8262 1
           "UTC" (example_table asr) (JStr "01-01-2000") H).
Defined.

Lemma get_prayer_times_other_madhhab_witness :
  example_get_prayer_times 21.4225 39.8262 7 "UTC"
  = example_get_prayer_times 21.4225 39.8262 2 "UTC".
Proof.
  apply (get_prayer_times_other_madhhab example_tzdata example_http_get
           new_year_2000 new_year_2000 new_year_2000 21.4225 39.8262 7 "UTC").
  discriminate.
Defined.

Lemma get_prayer_times_unknown_zone_witness :
  example_tzdata "Europe/Lyonesse" = None /\
  ~ (exists r, example_get_prayer_times 21.4225 39.8262 1 "Europe/Lyonesse"
               = Return r).
Proof.
  split; [reflexivity |]. intros [r H].
  exact (get_prayer_times_unknown_zone example_tzdata example_http_get
           new_year_2000 new_year_2000 new_year_2000 21.4225 39.8262 1
           "Europe/Lyonesse" r eq_refl H).
Defined.

Lemma get_prayer_times_failures_witness :
  example_get_prayer_times 0 (-180) 1 "UTC"
  = Throw (Core (ValueError "hour must be in 0..23")).
Proof.
  eapply (get_prayer_times_failures example_tzdata example_http_get
            new_year_2000 new_year_2000 new_year_2000 0 (-180) 1 "UTC"
            example_answer (JInt 200)).
  1-8: reflexivity.
  apply asr_time_date_line.
Defined.

Lemma main_transcript_witness :
  exists asr,
    example_main (mkworld ["21.4225"; "39.8262"; "7"] [])
    = (mkworld []
         [Printed "Enter your location to get today's prayer times:";
          Prompted "Latitude (e.g. 30.0444): ";
          Prompted "Longitude (e.g. 31.2357): ";
          Printed (String "010" "Choose Asr shadow length based on madhhab:");
          Printed "1 - Shafii/Hanbali/Maliki";
          Printed "2 - Hanafi";
          Prompted "Enter 1 or 2: ";
          Printed "Invalid choice, defaulting to Shafii/Hanbali/Maliki.";
          Printed "Warning: Could not detect timezone, using UTC.";
          main_header example_str_of_float example_repr_json
            (JStr "01-01-2000") 21.4225 39.8262 "UTC";
          Printed "Fajr: 05:38";
          Printed "Sunrise: 06:59";
          Printed "Dhuhr: 12:24";
          Printed ("Asr: " ++ asr);
          Printed "Maghrib: 17:49";
          Printed "Isha: 19:19";
          Printed "Lastthird: 01:41"],
       Return tt).
Proof.
  destruct example_get_prayer_times_run as [asr Hrun]. exists asr.
  exact (main_transcript example_tzdata example_http_get new_year_2000
           new_year_2000 new_year_2000 example_float_of_str
           example_int_of_str example_timezone_at example_str_of_float
           example_repr_json "21.4225" "39.8262" "7" [] [] 21.4225 39.8262 7
           None (example_table asr) (JStr "01-01-2000") eq_refl eq_refl
           eq_refl eq_refl Hrun eq_refl).
Defined.

Lemma main_outcome_witness :
  snd (example_main (mkworld ["21.4225"; "39.8262"; "2"] [])) = Return tt.
Proof.
  destruct asr_time_mecca_hanafi_utc as [asr Hasr].
  assert (Hrun : example_get_prayer_times 21.4225 39.8262 2 "UTC"
                 = Return (example_table asr, JStr "01-01-2000")).
  { unfold App.get_prayer_times. cbv zeta.
    change (2 =? 1)%Z with false. cbv iota.
    rewrite Hasr. reflexivity. }
  exact (main_outcome example_tzdata example_http_get new_year_2000
           new_year_2000 new_year_2000 example_float_of_str
           example_int_of_str example_timezone_at example_str_of_float
           example_repr_json "21.4225" "39.8262" "2" [] [] 21.4225 39.8262 2
           None (example_table asr) (JStr "01-01-2000") eq_refl eq_refl
           eq_refl eq_refl Hrun).
Defined.

Lemma main_propagates_witness :
  example_main_at example_zone_lost (mkworld ["21.4225"; "39.8262"; "1"] [])
  = (mkworld []
       [Printed "Enter your location to get today's prayer times:";
        Prompted "Latitude (e.g. 30.0444): ";
        Prompted "Longitude (e.g. 31.2357): ";
        Printed (String "010" "Choose Asr shadow length based on madhhab:");
        Printed "1 - Shafii/Hanbali/Maliki";
        Printed "2 - Hanafi";
        Prompted "Enter 1 or 2: "],
     Throw (APIError "API error: Bad Request")).
Proof.
  exact (main_propagates example_tzdata example_http_get new_year_2000
           new_year_2000 new_year_2000 example_float_of_str
           example_int_of_str example_zone_lost example_str_of_float
           example_repr_json "21.4225" "39.8262" "1" [] [] 21.4225 39.8262 1
           (Some "Atlantis/Poseidonis") _ eq_refl eq_refl eq_refl eq_refl
           get_prayer_times_rejected).
Defined.

End AppExamples.
